(** * Bedrock knowledge-base retrieval MCP server: dispatcher, session
      registry and backend gateway

    A shallow embedding of [src/server.ts] (the [CallToolRequestSchema]
    handler of [BedrockKBMCPServer]) and of [src/bedrock-client.ts]
    ([BedrockKnowledgeBaseClient]), with the types of [src/types.ts].

    - The [sessions] field, a JavaScript [Map<string, string>], is an
      association list in insertion order with the update-in-place
      behaviour of [Map.prototype.set]; its finite-map view is a [gmap].
    - The handler body runs in a small monad threading the registry,
      a thrown value, and a log of the calls made to collaborators.
    - [Date.now()] is an input of each call.
    - The tool catalog of [src/server.ts], [src/config.ts], the
      [ConfigSchema] of [src/types.ts] and the start-up of [src/index.ts]
      follow; [process.env] is a [gmap], and [parseInt], the texts zod
      gives its issues and the outcome of the SDK's [connect] are
      parameters. *)

From Stdlib Require Import QArith.
From stdpp Require Import base strings list gmap pretty.

Local Open Scope string_scope.
Local Open Scope list_scope.

(** ** JavaScript values as far as the handler inspects them *)

Inductive JsVal : Type :=
  | JUndefined
  | JNull
  | JBool (b : bool)
  | JNum (q : Q)
  | JNaN
  | JStr (s : string)
  | JObject.

(** [typeof v] *)
Definition typeof (v : JsVal) : string :=
  match v with
  | JUndefined => "undefined"
  | JNull => "object"
  | JBool _ => "boolean"
  | JNum _ | JNaN => "number"
  | JStr _ => "string"
  | JObject => "object"
  end.

(** Truthiness of a string: [""] is the only falsy string. *)
Definition truthy_string (s : string) : bool :=
  if decide (s = "") then false else true.

(** ToBoolean *)
Definition truthy (v : JsVal) : bool :=
  match v with
  | JUndefined | JNull | JNaN => false
  | JBool b => b
  | JNum q => negb (Qeq_bool q 0)
  | JStr s => truthy_string s
  | JObject => true
  end.

(** Truthiness of a [string | undefined]. *)
Definition truthy_opt (o : option string) : bool :=
  match o with
  | Some s => truthy_string s
  | None => false
  end.

(** [a || b] where [a : string | undefined] and [b : string]. *)
Definition or_else (a : option string) (b : string) : string :=
  match a with
  | Some s => if truthy_string s then s else b
  | None => b
  end.

(** [haystack.includes(needle)], as a proposition. *)
Definition includes (haystack needle : string) : Prop :=
  exists pre post, haystack = pre +:+ needle +:+ post.

(** Whether [s] starts with [needle]. *)
Fixpoint starts_with (needle s : string) : bool :=
  match needle, s with
  | EmptyString, _ => true
  | String c needle', String d s' =>
      if decide (c = d) then starts_with needle' s' else false
  | String _ _, EmptyString => false
  end.

(** [haystack.includes(needle)], computed. *)
Fixpoint includesb (haystack needle : string) : bool :=
  starts_with needle haystack
  || match haystack with
     | EmptyString => false
     | String _ rest => includesb rest needle
     end.

(** ** [src/types.ts] *)
Module Types.

Definition Metadata : Type := list (string * JsVal).

Record S3Location := { uri : option string }.

Record Location := {
  type : option string;
  s3Location : option S3Location;
}.

Record Config := {
  region : string;
  knowledgeBaseId : string;
  modelArn : option string;
  maxResults : Z;
  rerankingModelArn : option string;
}.

(** [RetrievalResult]; the nested [content: { text }] is the field
    [content_text]. *)
Record RetrievalResult := {
  content_text : string;
  location : option Location;
  score : option Q;
  metadata : option Metadata;
}.

Record Span := { start : Z; end_ : Z }.

Record Reference := {
  ref_content_text : string;
  ref_location : option Location;
  ref_metadata : option Metadata;
}.

(** One element of [RetrieveAndGenerateResult.citations]; the nested
    [generatedResponsePart.textResponsePart] is flattened into
    [part_text] and [part_span]. *)
Record Citation := {
  part_text : string;
  part_span : Span;
  retrievedReferences : list Reference;
}.

Record RetrieveAndGenerateResult := {
  output_text : string;
  citations : option (list Citation);
  sessionId : option string;
}.

End Types.

(** [location?.s3Location?.uri] *)
Definition location_uri (l : option Types.Location) : option string :=
  match l with
  | Some loc =>
      match Types.s3Location loc with
      | Some s3 => Types.uri s3
      | None => None
      end
  | None => None
  end.

(** ** The backend: request and response shapes of the AWS SDK client

    Every field of a response is optional, as in the SDK's declarations.
    A nested object that the client reads only through optional chaining
    ([result.content?.text], [citation.generatedResponsePart?.
    textResponsePart?.span?.start]) is flattened into the field read, which
    is [None] when any link of the chain is absent. *)
Module Aws.

Record RetrieveCommandInput := {
  knowledgeBaseId : string;
  retrievalQuery_text : string;
  numberOfResults : Z;
  rerankingConfiguration : option string;
  nextToken : option string;
}.

Record RetrieveAndGenerateCommandInput := {
  input_text : string;
  kb_knowledgeBaseId : string;
  kb_modelArn : option string;
  kb_numberOfResults : Z;
  kb_rerankingConfiguration : option string;
  generationConfiguration : option string;
  sessionId : option string;
}.

Record RetrievalResult := {
  content_text : option string;
  location : option Types.Location;
  score : option Q;
  metadata : option Types.Metadata;
}.

Record RetrieveResponse := {
  retrievalResults : option (list RetrievalResult);
}.

Record Reference := {
  ref_content_text : option string;
  ref_location : option Types.Location;
  ref_metadata : option Types.Metadata;
}.

Record Citation := {
  part_text : option string;
  span_start : option Z;
  span_end : option Z;
  retrievedReferences : option (list Reference);
}.

Record RetrieveAndGenerateResponse := {
  output_text : option string;
  citations : option (list Citation);
  response_sessionId : option string;
}.

End Aws.

(** ** Errors *)

Inductive ErrorCode := InvalidParams | MethodNotFound | InternalError.

(** [new McpError(code, message)]; [message] is the string given to the
    constructor. *)
Record McpError := { code : ErrorCode; message : string }.

(** A thrown value: an [McpError], another [Error] with its message, or
    a value that is no [Error] at all. *)
Inductive Thrown : Type :=
  | ThrowMcp (e : McpError)
  | ThrowError (msg : string)
  | ThrowOther (v : JsVal).

(** The numbers of the SDK's [ErrorCode]. *)
Definition error_number (c : ErrorCode) : Z :=
  match c with
  | InvalidParams => (-32602)%Z
  | MethodNotFound => (-32601)%Z
  | InternalError => (-32603)%Z
  end.

(** [error.message] of an [McpError]: its constructor calls
    [super(`MCP error ${code}: ${message}`)]. *)
Definition mcp_message (e : McpError) : string :=
  "MCP error " +:+ pretty (error_number (code e)) +:+ ": " +:+ message e.

(** [error instanceof Error ? error.message : 'Unknown error']; an
    [McpError] is an [Error]. *)
Definition message_or_unknown (t : Thrown) : string :=
  match t with
  | ThrowMcp e => mcp_message e
  | ThrowError msg => msg
  | ThrowOther _ => "Unknown error"
  end.

(** ** The log of calls made to collaborators *)

Inductive Event : Type :=
  | GatewayRetrieve (query : string) (sessionId : option string)
  | GatewayGenerate (query : string) (sessionId systemPrompt : option string)
  | BackendRetrieve (input : Aws.RetrieveCommandInput)
  | BackendGenerate (input : Aws.RetrieveAndGenerateCommandInput).

(** The settled result of an awaited call, with the calls it made. *)
Definition Async (X : Type) : Type := (Thrown + X) * list Event.

(** ** The gateway as the server sees it

    The interface of [BedrockKnowledgeBaseClient]: what the server calls
    on [this.bedrockClient], and what a test double replaces. *)
Record Gateway := {
  retrieve : string -> option string -> Async (list Types.RetrievalResult);
  retrieveAndGenerate :
    string -> option string -> option string ->
    Async Types.RetrieveAndGenerateResult;
}.

(** [this.client.send(command)] of the AWS SDK client. *)
Record Backend := {
  send_retrieve :
    Aws.RetrieveCommandInput -> Thrown + Aws.RetrieveResponse;
  send_generate :
    Aws.RetrieveAndGenerateCommandInput ->
    Thrown + Aws.RetrieveAndGenerateResponse;
}.

(** ** [src/bedrock-client.ts] *)
Module BedrockKnowledgeBaseClient.

(** [...(c && { field: c })]: spreading a falsy value adds no field. *)
Definition spread (c : option string) : option string :=
  match c with
  | Some s => if truthy_string s then Some s else None
  | None => None
  end.

(** [n || 0] on an optional offset. *)
Definition or_zero (n : option Z) : Z :=
  match n with
  | Some z => z
  | None => 0%Z
  end.

(** [l || []] *)
Definition or_nil {A : Type} (l : option (list A)) : list A :=
  match l with
  | Some xs => xs
  | None => []
  end.

(** The [input] object built by [retrieve]. *)
Definition retrieve_input (config : Types.Config) (query : string)
    (sessionId : option string) : Aws.RetrieveCommandInput :=
  {| Aws.knowledgeBaseId := Types.knowledgeBaseId config;
     Aws.retrievalQuery_text := query;
     Aws.numberOfResults := Types.maxResults config;
     Aws.rerankingConfiguration := spread (Types.rerankingModelArn config);
     Aws.nextToken := spread sessionId |}.

(** The mapping of one backend result in [retrieve]. *)
Definition retrieve_result (result : Aws.RetrievalResult)
    : Types.RetrievalResult :=
  {| Types.content_text := or_else (Aws.content_text result) "";
     Types.location := Aws.location result;
     Types.score := Aws.score result;
     Types.metadata := Aws.metadata result |}.

Definition retrieve (config : Types.Config) (client : Backend)
    (query : string) (sessionId : option string)
    : Async (list Types.RetrievalResult) :=
  let input := retrieve_input config query sessionId in
  match send_retrieve client input with
  | inr response =>
      (inr (map retrieve_result (or_nil (Aws.retrievalResults response))),
       [BackendRetrieve input])
  | inl error =>
      (inl (ThrowError ("Failed to retrieve from knowledge base: "
                        +:+ message_or_unknown error)),
       [BackendRetrieve input])
  end.

(** The [input] object built by [retrieveAndGenerate]. *)
Definition retrieveAndGenerate_input (config : Types.Config)
    (query : string) (sessionId systemPrompt : option string)
    : Aws.RetrieveAndGenerateCommandInput :=
  {| Aws.input_text := query;
     Aws.kb_knowledgeBaseId := Types.knowledgeBaseId config;
     Aws.kb_modelArn := Types.modelArn config;
     Aws.kb_numberOfResults := Types.maxResults config;
     Aws.kb_rerankingConfiguration :=
       spread (Types.rerankingModelArn config);
     Aws.generationConfiguration := spread systemPrompt;
     Aws.sessionId := spread sessionId |}.

Definition generate_reference (ref : Aws.Reference) : Types.Reference :=
  {| Types.ref_content_text := or_else (Aws.ref_content_text ref) "";
     Types.ref_location := Aws.ref_location ref;
     Types.ref_metadata := Aws.ref_metadata ref |}.

Definition generate_citation (citation : Aws.Citation) : Types.Citation :=
  {| Types.part_text := or_else (Aws.part_text citation) "";
     Types.part_span :=
       {| Types.start := or_zero (Aws.span_start citation);
          Types.end_ := or_zero (Aws.span_end citation) |};
     Types.retrievedReferences :=
       map generate_reference (or_nil (Aws.retrievedReferences citation)) |}.

(** The object returned by [retrieveAndGenerate] on a response. *)
Definition generate_result (response : Aws.RetrieveAndGenerateResponse)
    : Types.RetrieveAndGenerateResult :=
  {| Types.output_text := or_else (Aws.output_text response) "";
     Types.citations :=
       match Aws.citations response with
       | Some cs => Some (map generate_citation cs)
       | None => None
       end;
     Types.sessionId := Aws.response_sessionId response |}.

Definition retrieveAndGenerate (config : Types.Config) (client : Backend)
    (query : string) (sessionId systemPrompt : option string)
    : Async Types.RetrieveAndGenerateResult :=
  let input := retrieveAndGenerate_input config query sessionId systemPrompt in
  match send_generate client input with
  | inr response => (inr (generate_result response), [BackendGenerate input])
  | inl error =>
      (inl (ThrowError
              ("Failed to retrieve and generate from knowledge base: "
               +:+ message_or_unknown error)),
       [BackendGenerate input])
  end.

(** [new BedrockKnowledgeBaseClient(config)] over a given SDK client. *)
Definition new (config : Types.Config) (client : Backend) : Gateway :=
  Build_Gateway (retrieve config client) (retrieveAndGenerate config client).

End BedrockKnowledgeBaseClient.

(** ** The session registry: [Map<string, string>] in insertion order *)
Module JsMap.

Definition t : Type := list (string * string).

(** [new Map()] *)
Definition empty : t := [].

(** [m.get(k)] *)
Fixpoint get (k : string) (m : t) : option string :=
  match m with
  | [] => None
  | (k', v') :: rest => if decide (k' = k) then Some v' else get k rest
  end.

(** [m.has(k)] *)
Definition has (k : string) (m : t) : bool :=
  match get k m with
  | Some _ => true
  | None => false
  end.

(** [m.set(k, v)]: an existing key keeps its position, a new key goes
    last. *)
Fixpoint set (k v : string) (m : t) : t :=
  match m with
  | [] => [(k, v)]
  | (k', v') :: rest =>
      if decide (k' = k) then (k', v) :: rest else (k', v') :: set k v rest
  end.

(** [Array.from(m.entries())] *)
Definition entries (m : t) : list (string * string) := m.

(** The registry as a finite map, forgetting the order. *)
Definition view (m : t) : gmap string string :=
  foldr (fun kv acc => <[kv.1 := kv.2]> acc) (∅ : gmap string string) m.

End JsMap.

(** ** The shaped payloads: the objects given to [JSON.stringify]

    An optional field that is [None] is [undefined] in the object, and
    [JSON.stringify] leaves it out of the text. *)
Module Payload.

Record RankedResult := {
  rank : nat;
  content : string;
  score : option Q;
  source : string;
  metadata : option Types.Metadata;
}.

Record Source := {
  src_content : string;
  src_source : string;
  src_metadata : option Types.Metadata;
}.

Record Citation := {
  id : nat;
  text : string;
  span : Types.Span;
  sources : list Source;
}.

Record Session := {
  sessionId : string;
  bedrockSessionId : option string;
  active : bool;
}.

Inductive t : Type :=
  | Retrieved (query : string) (results : list RankedResult)
      (totalResults : nat)
  | Generated (query response : string) (sessionId : option string)
      (citations : option (list Citation))
  | SessionCreated (sessionId message : string)
  | SessionList (sessions : list Session) (totalSessions : nat).

End Payload.

(** One [{ type: 'text', text: JSON.stringify(payload, null, 2) }] item;
    [text] holds the payload that is serialised. *)
Record TextContent := { type : string; text : Payload.t }.

(** The result envelope [{ content: [...] }]. *)
Record CallToolResult := { content : list TextContent }.

Definition text_result (payload : Payload.t) : CallToolResult :=
  {| content := [ {| type := "text"; text := payload |} ] |}.

(** ** Requests *)

(** The argument bag, read at the fields the tool schemas declare.
    [query] is kept as a raw value because the handler tests its type;
    the other fields have their declared types, [None] when absent. *)
Record Arguments := {
  query : JsVal;
  sessionId : option string;
  systemPrompt : option string;
  sessionName : option string;
  maxResults : option Z;
}.

(** [request.params]; [arguments] is optional in the protocol. *)
Record CallToolRequest := {
  name : string;
  arguments : option Arguments;
}.

(** ** The handler monad: registry state, a thrown value, the call log *)

Definition M (X : Type) : Type :=
  JsMap.t -> (Thrown + X) * JsMap.t * list Event.

Definition ret {X : Type} (x : X) : M X :=
  fun sessions => (inr x, sessions, []).

Definition throw {X : Type} (t : Thrown) : M X :=
  fun sessions => (inl t, sessions, []).

Definition bind {X Y : Type} (m : M X) (k : X -> M Y) : M Y :=
  fun sessions =>
    match m sessions with
    | (inl t, sessions', log) => (inl t, sessions', log)
    | (inr x, sessions', log) =>
        match k x sessions' with
        | (r, sessions'', log') => (r, sessions'', log ++ log')
        end
    end.

Notation "x <- m ;; k" := (bind m (fun x => k))
  (at level 100, m at next level, right associativity).
Notation "m ;;; k" := (bind m (fun _ => k))
  (at level 100, right associativity).

(** [await call], logged as [ev] followed by what the call itself did. *)
Definition await {X : Type} (ev : Event) (call : Async X) : M X :=
  fun sessions => (call.1, sessions, ev :: call.2).

(** [this.sessions] *)
Definition sessions_read : M JsMap.t :=
  fun sessions => (inr sessions, sessions, []).

(** [this.sessions.set(k, v)] *)
Definition sessions_set (k v : string) : M unit :=
  fun sessions => (inr tt, JsMap.set k v sessions, []).

(** ** [src/server.ts]: the [CallToolRequestSchema] handler *)

(** [`session_${Date.now()}`] *)
Definition generated_handle (now : N) : string := "session_" +:+ pretty now.

(** [const { first, ... } = args]: destructuring [undefined] throws a
    [TypeError]. *)
Definition destructure (first : string) (args : option Arguments)
    : M Arguments :=
  match args with
  | Some a => ret a
  | None =>
      throw (ThrowError ("Cannot destructure property '" +:+ first
                         +:+ "' of 'args' as it is undefined."))
  end.

(** [!query || typeof query !== 'string'] *)
Definition invalid_query (v : JsVal) : bool :=
  negb (truthy v) || negb (bool_decide (typeof v = "string")).

(** The value of [query] once it is known to be a string. *)
Definition as_string (v : JsVal) : string :=
  match v with
  | JStr s => s
  | _ => ""
  end.

Definition query_error : McpError :=
  {| code := InvalidParams;
     message := "Query is required and must be a string" |}.

(** The callback of [results.map((result, index) => ...)]. *)
Definition shape_result (index : nat) (result : Types.RetrievalResult)
    : Payload.RankedResult :=
  {| Payload.rank := index + 1;
     Payload.content := Types.content_text result;
     Payload.score := Types.score result;
     Payload.source := or_else (location_uri (Types.location result)) "Unknown";
     Payload.metadata := Types.metadata result |}.

Definition retrieve_knowledge (gw : Gateway) (args : option Arguments)
    : M CallToolResult :=
  a <- destructure "query" args ;;
  if invalid_query (query a) then throw (ThrowMcp query_error)
  else
    let q := as_string (query a) in
    results <- await (GatewayRetrieve q (sessionId a))
                     (retrieve gw q (sessionId a)) ;;
    ret (text_result
           (Payload.Retrieved q (imap shape_result results) (length results))).

(** [actualSessionId] *)
Definition resolve (sessions : JsMap.t) (sessionId : option string)
    : option string :=
  match sessionId with
  | Some sid =>
      if truthy_string sid && JsMap.has sid sessions
      then JsMap.get sid sessions
      else Some sid
  | None => None
  end.

(** The "store or update session ID" block. *)
Definition store_session (now : N) (sessionId token : option string)
    : M unit :=
  match token with
  | Some tok =>
      if truthy_string tok then
        match sessionId with
        | Some sid =>
            if truthy_string sid then sessions_set sid tok
            else sessions_set (generated_handle now) tok
        | None => sessions_set (generated_handle now) tok
        end
      else ret tt
  | None => ret tt
  end.

Definition shape_source (ref : Types.Reference) : Payload.Source :=
  {| Payload.src_content := Types.ref_content_text ref;
     Payload.src_source := or_else (location_uri (Types.ref_location ref)) "Unknown";
     Payload.src_metadata := Types.ref_metadata ref |}.

Definition shape_citation (index : nat) (citation : Types.Citation)
    : Payload.Citation :=
  {| Payload.id := index + 1;
     Payload.text := Types.part_text citation;
     Payload.span := Types.part_span citation;
     Payload.sources := map shape_source (Types.retrievedReferences citation) |}.

Definition retrieve_and_generate (gw : Gateway) (now : N)
    (args : option Arguments) : M CallToolResult :=
  a <- destructure "query" args ;;
  if invalid_query (query a) then throw (ThrowMcp query_error)
  else
    let q := as_string (query a) in
    sessions <- sessions_read ;;
    let actualSessionId := resolve sessions (sessionId a) in
    result <- await (GatewayGenerate q actualSessionId (systemPrompt a))
                    (retrieveAndGenerate gw q actualSessionId (systemPrompt a)) ;;
    store_session now (sessionId a) (Types.sessionId result) ;;;
    ret (text_result
           (Payload.Generated q (Types.output_text result)
              (Types.sessionId result)
              (match Types.citations result with
               | Some cs => Some (imap shape_citation cs)
               | None => None
               end))).

Definition create_session (now : N) (args : option Arguments)
    : M CallToolResult :=
  a <- destructure "sessionName" args ;;
  let sessionId := or_else (sessionName a) (generated_handle now) in
  sessions_set sessionId "" ;;;
  ret (text_result
         (Payload.SessionCreated sessionId "Session created successfully")).

Definition session_entry (entry : string * string) : Payload.Session :=
  {| Payload.sessionId := entry.1;
     Payload.bedrockSessionId :=
       if truthy_string entry.2 then Some entry.2 else None;
     Payload.active := truthy_string entry.2 |}.

Definition list_sessions : M CallToolResult :=
  sessions <- sessions_read ;;
  let sessions := map session_entry (JsMap.entries sessions) in
  ret (text_result (Payload.SessionList sessions (length sessions))).

(** The body of the [try] block: the [switch (name)]. *)
Definition dispatch (gw : Gateway) (now : N) (request : CallToolRequest)
    : M CallToolResult :=
  if decide (name request = "retrieve_knowledge") then
    retrieve_knowledge gw (arguments request)
  else if decide (name request = "retrieve_and_generate") then
    retrieve_and_generate gw now (arguments request)
  else if decide (name request = "create_session") then
    create_session now (arguments request)
  else if decide (name request = "list_sessions") then
    list_sessions
  else
    throw (ThrowMcp {| code := MethodNotFound;
                       message := "Unknown tool: " +:+ name request |}).

(** The [catch (error)] block. *)
Definition on_error (request : CallToolRequest) (error : Thrown) : McpError :=
  match error with
  | ThrowMcp e => e
  | _ =>
      {| code := InternalError;
         message := "Error executing tool " +:+ name request +:+ ": "
                    +:+ message_or_unknown error |}
  end.

(** The handler: it settles with an envelope or rejects with an
    [McpError]; the registry and the log are what the call left behind. *)
Definition callTool (gw : Gateway) (now : N) (request : CallToolRequest)
    (sessions : JsMap.t)
    : (McpError + CallToolResult) * JsMap.t * list Event :=
  match dispatch gw now request sessions with
  | (inr result, sessions', log) => (inr result, sessions', log)
  | (inl error, sessions', log) => (inl (on_error request error), sessions', log)
  end.

(** The tool catalog's names, in order. *)
Definition tool_names : list string :=
  ["retrieve_knowledge"; "retrieve_and_generate"; "create_session";
   "list_sessions"].

(** ** Reading a run of the handler *)

Definition outcome {X : Type} (r : X * JsMap.t * list Event) : X := r.1.1.
Definition registry_after {X : Type} (r : X * JsMap.t * list Event) : JsMap.t :=
  r.1.2.
Definition call_log {X : Type} (r : X * JsMap.t * list Event) : list Event :=
  r.2.

(** The registry left by the "store or update" block. *)
Definition stored (now : N) (sessionId token : option string)
    (sessions : JsMap.t) : JsMap.t :=
  registry_after (store_session now sessionId token sessions).

Definition shape_generated (q : string)
    (result : Types.RetrieveAndGenerateResult) : CallToolResult :=
  text_result
    (Payload.Generated q (Types.output_text result) (Types.sessionId result)
       (match Types.citations result with
        | Some cs => Some (imap shape_citation cs)
        | None => None
        end)).

(** ** Fixtures: the stub collaborators of the specification's examples *)

Definition result_A : Types.RetrievalResult :=
  {| Types.content_text := "A"; Types.location := None;
     Types.score := Some (95 # 100); Types.metadata := None |}.

Definition result_B : Types.RetrievalResult :=
  {| Types.content_text := "B";
     Types.location :=
       Some {| Types.type := None;
               Types.s3Location := Some {| Types.uri := Some "s3://bucket/b" |} |};
     Types.score := Some (88 # 100); Types.metadata := None |}.

(** A gateway double: [retrieve] resolves to [[A; B]], and
    [retrieveAndGenerate] to [{ output: { text: "r" }, sessionId: token }]. *)
Definition stub_gateway (token : option string) : Gateway :=
  {| retrieve := fun _ _ => (inr [result_A; result_B], []);
     retrieveAndGenerate := fun _ _ _ =>
       (inr {| Types.output_text := "r"; Types.citations := None;
               Types.sessionId := token |}, []) |}.

Definition stub_config : Types.Config :=
  {| Types.region := "us-east-1"; Types.knowledgeBaseId := "test-kb-id";
     Types.modelArn := None; Types.maxResults := 10;
     Types.rerankingModelArn := None |}.

(** An SDK client double whose [send] rejects with [new Error(msg)]. *)
Definition failing_backend (msg : string) : Backend :=
  {| send_retrieve := fun _ => inl (ThrowError msg);
     send_generate := fun _ => inl (ThrowError msg) |}.

(** An SDK client double whose [send] resolves to fixed responses. *)
Definition stub_backend (r : Aws.RetrieveResponse)
    (g : Aws.RetrieveAndGenerateResponse) : Backend :=
  {| send_retrieve := fun _ => inr r; send_generate := fun _ => inr g |}.

Definition arguments_of (q : JsVal) (sid : option string) : Arguments :=
  {| query := q; sessionId := sid; systemPrompt := None;
     sessionName := None; maxResults := None |}.

Definition call (tool : string) (a : Arguments) : CallToolRequest :=
  {| name := tool; arguments := Some a |}.

(** ** Sequences of calls *)

(** One dispatched call: the gateway as it behaves during the call, the
    clock, and the request. *)
Record Call := {
  call_gateway : Gateway;
  call_now : N;
  call_request : CallToolRequest;
}.

Record Completed := {
  completed_call : Call;
  completed_outcome : McpError + CallToolResult;
}.

Definition serve (c : Call) (sessions : JsMap.t)
    : (McpError + CallToolResult) * JsMap.t * list Event :=
  callTool (call_gateway c) (call_now c) (call_request c) sessions.

(** The calls handled one after the other: the registry they leave and
    the history of their outcomes. *)
Fixpoint run (calls : list Call) (sessions : JsMap.t)
    : JsMap.t * list Completed :=
  match calls with
  | [] => (sessions, [])
  | c :: rest =>
      let r := serve c sessions in
      let later := run rest (registry_after r) in
      (later.1,
       {| completed_call := c; completed_outcome := outcome r |} :: later.2)
  end.

(** The handle a generation response is stored under: the [sessionId]
    supplied with the call, or a generated one. *)
Definition write_handle (c : Call) : string :=
  match arguments (call_request c) with
  | Some a => or_else (sessionId a) (generated_handle (call_now c))
  | None => generated_handle (call_now c)
  end.

(** The registry write a completed call stands for, read off its
    envelope: a [create_session] response writes the empty token under the
    handle it reports, a [retrieve_and_generate] response that carries a
    non-empty token writes that token, and nothing else writes. *)
Definition write_of (c : Completed) : option (string * string) :=
  match completed_outcome c with
  | inr {| content := [ {| text := Payload.SessionCreated handle _ |} ] |} =>
      Some (handle, "")
  | inr {| content :=
             [ {| text := Payload.Generated _ _ (Some tok) _ |} ] |} =>
      if truthy_string tok then Some (write_handle (completed_call c), tok)
      else None
  | _ => None
  end.

(** Last write wins: the token of the last write to [handle], if any. *)
Definition last_write_from (start : option string) (handle : string)
    (writes : list (string * string)) : option string :=
  foldl (fun acc w => if decide (w.1 = handle) then Some w.2 else acc)
    start writes.

Definition last_write : string -> list (string * string) -> option string :=
  last_write_from None.

(** ** [src/server.ts]: the [ListToolsRequestSchema] handler *)
Module Catalog.

(** One entry of [inputSchema.properties]. *)
Record Property := {
  type : string;
  property_description : string;
  minimum : option Z;
  maximum : option Z;
}.

Record InputSchema := {
  schema_type : string;
  properties : list (string * Property);
  required : option (list string);
}.

Record Tool := {
  name : string;
  description : string;
  inputSchema : InputSchema;
}.

Definition text_property (d : string) : Property :=
  {| type := "string"; property_description := d;
     minimum := None; maximum := None |}.

End Catalog.

(** The [tools] array the handler answers with. *)
Definition listTools : list Catalog.Tool :=
  [ {| Catalog.name := "retrieve_knowledge";
       Catalog.description :=
         "Retrieve relevant information from AWS Bedrock Knowledge Base";
       Catalog.inputSchema :=
         {| Catalog.schema_type := "object";
            Catalog.properties :=
              [ ("query",
                 Catalog.text_property
                   "The search query to retrieve relevant information");
                ("sessionId",
                 Catalog.text_property
                   "Optional session ID to maintain context across requests");
                ("maxResults",
                 {| Catalog.type := "number";
                    Catalog.property_description :=
                      "Maximum number of results to return (1-100)";
                    Catalog.minimum := Some 1%Z;
                    Catalog.maximum := Some 100%Z |}) ];
            Catalog.required := Some ["query"] |} |};
    {| Catalog.name := "retrieve_and_generate";
       Catalog.description :=
         "Retrieve information and generate a response using AWS Bedrock Knowledge Base";
       Catalog.inputSchema :=
         {| Catalog.schema_type := "object";
            Catalog.properties :=
              [ ("query",
                 Catalog.text_property
                   "The question or prompt to generate a response for");
                ("sessionId",
                 Catalog.text_property
                   "Optional session ID to maintain conversation context");
                ("systemPrompt",
                 Catalog.text_property
                   "Optional system prompt to customize the response generation") ];
            Catalog.required := Some ["query"] |} |};
    {| Catalog.name := "create_session";
       Catalog.description :=
         "Create a new session for maintaining conversation context";
       Catalog.inputSchema :=
         {| Catalog.schema_type := "object";
            Catalog.properties :=
              [ ("sessionName",
                 Catalog.text_property "Optional name for the session") ];
            Catalog.required := None |} |};
    {| Catalog.name := "list_sessions";
       Catalog.description := "List all active sessions";
       Catalog.inputSchema :=
         {| Catalog.schema_type := "object";
            Catalog.properties := [];
            Catalog.required := None |} |} ].

(** Whether a tool's schema lists [field] under [required]. *)
Definition requires (tool : Catalog.Tool) (field : string) : bool :=
  match Catalog.required (Catalog.inputSchema tool) with
  | Some fields => bool_decide (field ∈ fields)
  | None => false
  end.

(** The server as [index.ts] builds it: the handler over the real client,
    [new BedrockKBMCPServer(config)] with the SDK client [client]. *)
Definition server (config : Types.Config) (client : Backend)
    : N -> CallToolRequest -> JsMap.t ->
      (McpError + CallToolResult) * JsMap.t * list Event :=
  callTool (BedrockKnowledgeBaseClient.new config client).

(** The requests of a log that went to the backend. *)
Definition is_backend (ev : Event) : bool :=
  match ev with
  | BackendRetrieve _ | BackendGenerate _ => true
  | GatewayRetrieve _ _ | GatewayGenerate _ _ _ => false
  end.

(** ** [src/types.ts]: [ConfigSchema], on the object [loadConfig] builds

    [loadConfig] is the only caller of [ConfigSchema.parse], and the
    object it builds holds strings read from the environment and a number
    that is 10 or comes from [parseInt]; the schema is modelled on those
    values. *)

(** A number as [parseInt] yields it: [NaN] or an integer (a digit string
    too long for a double, which [parseInt] rounds or takes to [Infinity],
    is the integer it spells: it is above every bound tested here either
    way). *)
Inductive JsNumber : Type :=
  | NaN
  | Num (z : Z).

(** The issues of a [ZodError], as far as [ConfigSchema] raises them. *)
Module Zod.

Inductive IssueCode : Type :=
  | InvalidTypeUndefined
  | InvalidTypeNaN
  | TooSmall
  | TooBig.

Record Issue := { path : list string; code : IssueCode }.

End Zod.

Module ConfigSchema.

(** The [config] object of [loadConfig]: a field read from the
    environment is a string or [undefined] ([None]), and [maxResults] is a
    number as [parseInt] yields it. *)
Record Input := {
  region : option string;
  knowledgeBaseId : option string;
  modelArn : option string;
  maxResults : option JsNumber;
  rerankingModelArn : option string;
}.

(** [z.string()] on [knowledgeBaseId]. *)
Definition knowledgeBaseId_issues (v : option string) : list Zod.Issue :=
  match v with
  | Some _ => []
  | None =>
      [ {| Zod.path := ["knowledgeBaseId"];
           Zod.code := Zod.InvalidTypeUndefined |} ]
  end.

(** [z.number().min(1).max(100).default(10)] on [maxResults]: [undefined]
    takes the default, [NaN] is no number, and both bounds are inclusive. *)
Definition maxResults_issues (v : option JsNumber) : list Zod.Issue :=
  match v with
  | None => []
  | Some NaN =>
      [ {| Zod.path := ["maxResults"]; Zod.code := Zod.InvalidTypeNaN |} ]
  | Some (Num z) =>
      (if (z <? 1)%Z
       then [ {| Zod.path := ["maxResults"]; Zod.code := Zod.TooSmall |} ]
       else [])
      ++ (if (100 <? z)%Z
          then [ {| Zod.path := ["maxResults"]; Zod.code := Zod.TooBig |} ]
          else [])
  end.

(** The issues in the order of the schema's keys; the string fields
    [region], [modelArn] and [rerankingModelArn] raise none on a string or
    on [undefined]. *)
Definition issues (input : Input) : list Zod.Issue :=
  knowledgeBaseId_issues (knowledgeBaseId input)
  ++ maxResults_issues (maxResults input).

(** [ConfigSchema.parse(input)]: the parsed configuration, or the issues
    of the [ZodError] it throws. *)
Definition parse (input : Input) : list Zod.Issue + Types.Config :=
  match issues input, knowledgeBaseId input, maxResults input with
  | [], Some kb, Some (Num z) =>
      inr {| Types.region := default "us-east-1" (region input);
             Types.knowledgeBaseId := kb;
             Types.modelArn := modelArn input;
             Types.maxResults := z;
             Types.rerankingModelArn := rerankingModelArn input |}
  | [], Some kb, None =>
      inr {| Types.region := default "us-east-1" (region input);
             Types.knowledgeBaseId := kb;
             Types.modelArn := modelArn input;
             Types.maxResults := 10;
             Types.rerankingModelArn := rerankingModelArn input |}
  | errors, _, _ => inl errors
  end.

End ConfigSchema.

(** ** [src/config.ts] and the start-up of [src/index.ts] *)

(** [String.fromCharCode(10)] *)
Definition newline : string := String (Ascii.ascii_of_nat 10) EmptyString.

(** [list.join(sep)] *)
Fixpoint join (sep : string) (l : list string) : string :=
  match l with
  | [] => ""
  | [x] => x
  | x :: rest => x +:+ sep +:+ join sep rest
  end.

(** What [main] comes to: [process.exit(status)], or a server that is
    connected and running with [config] once [server.run()] has resolved;
    [stderr] holds the arguments of each [console.error] call. *)
Inductive Startup : Type :=
  | Exited (status : Z) (stderr : list (list JsVal))
  | Running (config : Types.Config) (stderr : list (list JsVal)).

Section Environment.

(** [parseInt(s, 10)] *)
Variable parseInt : string -> JsNumber.

(** The [message] zod gives an issue. *)
Variable issue_message : Zod.IssueCode -> string.

(** What [this.server.connect()] settles to; [run] calls it without a
    transport. *)
Variable connect : Thrown + unit.

(** [process.env] *)
Definition Env : Type := gmap string string.

Definition loadConfig (env : Env) : string + Types.Config :=
  let config :=
    {| ConfigSchema.region :=
         Some (or_else (env !! "AWS_REGION")
                 (or_else (env !! "AWS_DEFAULT_REGION") "us-east-1"));
       ConfigSchema.knowledgeBaseId := env !! "KNOWLEDGE_BASE_ID";
       ConfigSchema.modelArn := env !! "MODEL_ARN";
       ConfigSchema.maxResults :=
         Some (match env !! "MAX_RESULTS" with
               | Some s => if truthy_string s then parseInt s else Num 10
               | None => Num 10
               end);
       ConfigSchema.rerankingModelArn := env !! "RERANKING_MODEL_ARN" |} in
  match ConfigSchema.parse config with
  | inr parsed => inr parsed
  | inl errors =>
      let errorMessages :=
        map (fun err =>
               join "." (Zod.path err) +:+ ": "
               +:+ issue_message (Zod.code err)) errors in
      inl ("Configuration validation failed:" +:+ newline
           +:+ join newline errorMessages)
  end.

Definition requiredEnvVars : list string := ["KNOWLEDGE_BASE_ID"].

Definition validateEnvironment (env : Env) : string + unit :=
  let missingVars :=
    List.filter (fun varName => negb (truthy_opt (env !! varName)))
      requiredEnvVars in
  if (0 <? length missingVars)%nat then
    inl ("Missing required environment variables: "
         +:+ join ", " missingVars +:+ newline +:+ newline
         +:+ "Required environment variables:" +:+ newline
         +:+ "  KNOWLEDGE_BASE_ID - AWS Bedrock Knowledge Base ID"
         +:+ newline +:+ newline
         +:+ "Optional environment variables:" +:+ newline
         +:+ "  AWS_REGION - AWS region (default: us-east-1)" +:+ newline
         +:+ "  MODEL_ARN - Model ARN for RetrieveAndGenerate operations"
         +:+ newline
         +:+ "  MAX_RESULTS - Maximum number of results (default: 10)"
         +:+ newline
         +:+ "  RERANKING_MODEL_ARN - Reranking model ARN for improved relevance")
  else inr tt.

(** [BedrockKBMCPServer.run]: [await this.server.connect()]. *)
Definition BedrockKBMCPServer_run : Thrown + unit := connect.

(** The lines [main] logs once the server is built. *)
Definition startup_log (config : Types.Config) : list (list JsVal) :=
  [ [JStr "🚀 Starting Bedrock Knowledge Base Retrieval MCP Server"];
    [JStr ("   Region: " +:+ Types.region config)];
    [JStr ("   Knowledge Base ID: " +:+ Types.knowledgeBaseId config)];
    [JStr ("   Max Results: " +:+ pretty (Types.maxResults config))] ]
  ++ (match Types.modelArn config with
      | Some arn =>
          if truthy_string arn then [[JStr ("   Model ARN: " +:+ arn)]]
          else []
      | None => []
      end)
  ++ (match Types.rerankingModelArn config with
      | Some arn =>
          if truthy_string arn
          then [[JStr ("   Reranking Model ARN: " +:+ arn)]]
          else []
      | None => []
      end)
  ++ [ [JStr ("✅ Server ready and waiting for connections..." +:+ newline)] ].

(** The [console.error] of [main]'s [catch]: the label, then
    [error instanceof Error ? error.message : error]. *)
Definition failure_line (error : Thrown) : list JsVal :=
  [ JStr "❌ Failed to start server:";
    match error with
    | ThrowError msg => JStr msg
    | ThrowMcp e => JStr (mcp_message e)
    | ThrowOther v => v
    end ].

(** [main()]: the [try] block runs to the end of [await server.run()]. *)
Definition main (env : Env) : Startup :=
  match validateEnvironment env with
  | inl message => Exited 1 [failure_line (ThrowError message)]
  | inr _ =>
      match loadConfig env with
      | inl message => Exited 1 [failure_line (ThrowError message)]
      | inr config =>
          match BedrockKBMCPServer_run with
          | inr _ => Running config (startup_log config)
          | inl error =>
              Exited 1 (startup_log config ++ [failure_line error])
          end
      end
  end.

End Environment.

(** ** Fixtures for the environment *)

Fixpoint digits_value (acc : Z) (s : string) : option Z :=
  match s with
  | EmptyString => Some acc
  | String c rest =>
      match Ascii.is_nat c with
      | Some d => digits_value (acc * 10 + Z.of_nat d) rest
      | None => None
      end
  end.

(** A [parseInt] for the examples: the value of a non-empty string of
    decimal digits, where it agrees with [parseInt(s, 10)]; [NaN] on any
    other string. *)
Definition parse_digits (s : string) : JsNumber :=
  match s with
  | EmptyString => NaN
  | _ =>
      match digits_value 0 s with
      | Some z => Num z
      | None => NaN
      end
  end.

(** A gateway double whose calls reject with [error]. *)
Definition rejecting_gateway (error : Thrown) : Gateway :=
  {| retrieve := fun _ _ => (inl error, []);
     retrieveAndGenerate := fun _ _ _ => (inl error, []) |}.

(** An SDK client double whose [send] rejects with the thrown value
    [error]. *)
Definition throwing_backend (error : Thrown) : Backend :=
  {| send_retrieve := fun _ => inl error;
     send_generate := fun _ => inl error |}.

(** A [connect] that rejects with a [TypeError], as it does when it is
    given no transport; the text stands for the engine's. *)
Definition connect_rejects : Thrown + unit :=
  inl (ThrowError "Cannot set properties of undefined (setting 'onclose')").

(** An environment for the examples. *)
Definition example_env : gmap string string :=
  <["KNOWLEDGE_BASE_ID" := "kb"]>
    (<["MAX_RESULTS" := "25"]> (<["AWS_DEFAULT_REGION" := "eu-west-1"]> ∅)).

(** The issue messages of zod 3. *)
Definition zod_message (c : Zod.IssueCode) : string :=
  match c with
  | Zod.InvalidTypeUndefined => "Required"
  | Zod.InvalidTypeNaN => "Expected number, received nan"
  | Zod.TooSmall => "Number must be greater than or equal to 1"
  | Zod.TooBig => "Number must be less than or equal to 100"
  end.

(** * Properties *)

(** ** Strings *)

Lemma append_cons (ch : Ascii.ascii) (a b : string) :
  String ch a +:+ b = String ch (a +:+ b).
Proof. reflexivity. Qed.

Lemma append_assoc (a b c : string) : (a +:+ b) +:+ c = a +:+ (b +:+ c).
Proof.
  induction a as [|ch a IH]; [reflexivity|].
  rewrite !append_cons. f_equal. exact IH.
Qed.

Lemma append_empty_r (a : string) : a +:+ "" = a.
Proof.
  induction a as [|ch a IH]; [reflexivity|].
  rewrite append_cons. f_equal. exact IH.
Qed.

Lemma includes_refl (s : string) : includes s s.
Proof. exists "", "". simpl. now rewrite append_empty_r. Qed.

Lemma includes_suffix (p s : string) : includes (p +:+ s) s.
Proof. exists p, "". now rewrite append_empty_r. Qed.

Lemma includes_append_l (p s x : string) :
  includes s x -> includes (p +:+ s) x.
Proof.
  intros (pre & post & ->). exists (p +:+ pre), post.
  now rewrite append_assoc.
Qed.

Lemma includes_append_r (s q x : string) :
  includes s x -> includes (s +:+ q) x.
Proof.
  intros (pre & post & ->). exists pre, (post +:+ q).
  now rewrite !append_assoc.
Qed.

Lemma truthy_string_true (s : string) : truthy_string s = true <-> s <> "".
Proof. unfold truthy_string. destruct (decide (s = "")); split; congruence. Qed.

Lemma truthy_string_false (s : string) : truthy_string s = false <-> s = "".
Proof. unfold truthy_string. destruct (decide (s = "")); split; congruence. Qed.

(** ** The registry *)

Lemma get_set_eq (k v : string) (m : JsMap.t) :
  JsMap.get k (JsMap.set k v m) = Some v.
Proof.
  induction m as [|[k' v'] m IH]; simpl.
  - now rewrite decide_True.
  - destruct (decide (k' = k)) as [->|Hne]; simpl.
    + now rewrite decide_True.
    + now rewrite decide_False.
Qed.

Lemma get_set_ne (k k' v : string) (m : JsMap.t) :
  k <> k' -> JsMap.get k' (JsMap.set k v m) = JsMap.get k' m.
Proof.
  intros Hne. induction m as [|[k0 v0] m IH]; simpl.
  - now rewrite decide_False.
  - destruct (decide (k0 = k)) as [->|Hk0]; simpl.
    + now rewrite !decide_False.
    + destruct (decide (k0 = k')); [reflexivity | exact IH].
Qed.

Lemma get_set (k k' v : string) (m : JsMap.t) :
  JsMap.get k' (JsMap.set k v m)
  = if decide (k = k') then Some v else JsMap.get k' m.
Proof.
  destruct (decide (k = k')) as [->|Hne];
    [apply get_set_eq | now apply get_set_ne].
Qed.

Lemma view_lookup (m : JsMap.t) (k : string) :
  JsMap.view m !! k = JsMap.get k m.
Proof.
  induction m as [|[k' v'] m IH]; simpl.
  - apply lookup_empty.
  - rewrite lookup_insert. destruct (decide (k' = k)); [reflexivity | exact IH].
Qed.

(** [set] on the list is [insert] on the finite-map view. *)
Lemma view_set (k v : string) (m : JsMap.t) :
  JsMap.view (JsMap.set k v m) = <[k := v]> (JsMap.view m).
Proof.
  apply map_eq. intros k'.
  rewrite view_lookup, get_set, lookup_insert, view_lookup. reflexivity.
Qed.

Lemma keys_set (k v : string) (m : JsMap.t) :
  (JsMap.set k v m).*1 = if JsMap.has k m then m.*1 else m.*1 ++ [k].
Proof.
  unfold JsMap.has. induction m as [|[k' v'] m IH]; [reflexivity|].
  cbn [JsMap.set JsMap.get].
  destruct (decide (k' = k)) as [->|Hne]; [reflexivity|].
  rewrite !fmap_cons, IH. now destruct (JsMap.get k m).
Qed.

Lemma get_None_keys (k : string) (m : JsMap.t) :
  JsMap.get k m = None -> k ∉ m.*1.
Proof.
  induction m as [|[k' v'] m IH]; cbn [JsMap.get]; intros Hget.
  - apply not_elem_of_nil.
  - destruct (decide (k' = k)) as [->|Hne]; [discriminate|].
    rewrite fmap_cons. apply not_elem_of_cons.
    split; [simpl; congruence | auto].
Qed.

(** Keys stay unique under [set]. *)
Lemma NoDup_keys_set (k v : string) (m : JsMap.t) :
  NoDup m.*1 -> NoDup (JsMap.set k v m).*1.
Proof.
  intros Hnd. rewrite keys_set. unfold JsMap.has.
  destruct (JsMap.get k m) eqn:Hget; [exact Hnd|].
  apply NoDup_app. split; [exact Hnd|]. split.
  - intros x Hx Hin. apply list_elem_of_singleton in Hin. subst x.
    now apply get_None_keys in Hget.
  - apply NoDup_singleton.
Qed.

(** ** The handler, case by case *)

Lemma dispatch_retrieve_knowledge gw now request :
  name request = "retrieve_knowledge" ->
  dispatch gw now request = retrieve_knowledge gw (arguments request).
Proof. intros H. unfold dispatch. now rewrite H. Qed.

Lemma dispatch_retrieve_and_generate gw now request :
  name request = "retrieve_and_generate" ->
  dispatch gw now request = retrieve_and_generate gw now (arguments request).
Proof. intros H. unfold dispatch. now rewrite H. Qed.

Lemma dispatch_create_session gw now request :
  name request = "create_session" ->
  dispatch gw now request = create_session now (arguments request).
Proof. intros H. unfold dispatch. now rewrite H. Qed.

Lemma dispatch_list_sessions gw now request :
  name request = "list_sessions" ->
  dispatch gw now request = list_sessions.
Proof. intros H. unfold dispatch. now rewrite H. Qed.

Lemma dispatch_default gw now request :
  name request ∉ tool_names ->
  dispatch gw now request
  = throw (ThrowMcp {| code := MethodNotFound;
                       message := "Unknown tool: " +:+ name request |}).
Proof.
  intros H. unfold dispatch, tool_names in *.
  repeat (destruct (decide _) as [E|_];
          [exfalso; apply H; rewrite E; set_solver|]).
  reflexivity.
Qed.

(** What a call to [retrieve_knowledge] with an argument bag does. *)
Lemma retrieve_knowledge_run gw a sessions :
  retrieve_knowledge gw (Some a) sessions
  = if invalid_query (query a) then (inl (ThrowMcp query_error), sessions, [])
    else
      let q := as_string (query a) in
      match retrieve gw q (sessionId a) with
      | (inr results, glog) =>
          (inr (text_result
                  (Payload.Retrieved q (imap shape_result results)
                     (length results))),
           sessions, GatewayRetrieve q (sessionId a) :: glog)
      | (inl error, glog) =>
          (inl error, sessions, GatewayRetrieve q (sessionId a) :: glog)
      end.
Proof.
  unfold retrieve_knowledge, bind, destructure, ret, throw, await.
  destruct (invalid_query (query a)); [reflexivity|]. cbn zeta.
  destruct (retrieve gw _ _) as [[error|results] glog]; cbn;
    [reflexivity | now rewrite app_nil_r].
Qed.

Lemma store_session_run now sid token sessions :
  store_session now sid token sessions
  = (inr tt, stored now sid token sessions, []).
Proof.
  unfold stored, registry_after, store_session, sessions_set, ret.
  destruct token as [tok|]; [|reflexivity].
  destruct (truthy_string tok); [|reflexivity].
  destruct sid as [s|]; [|reflexivity].
  now destruct (truthy_string s).
Qed.

(** What a call to [retrieve_and_generate] with an argument bag does. *)
Lemma retrieve_and_generate_run gw now a sessions :
  retrieve_and_generate gw now (Some a) sessions
  = if invalid_query (query a) then (inl (ThrowMcp query_error), sessions, [])
    else
      let q := as_string (query a) in
      let actual := resolve sessions (sessionId a) in
      match retrieveAndGenerate gw q actual (systemPrompt a) with
      | (inr result, glog) =>
          (inr (shape_generated q result),
           stored now (sessionId a) (Types.sessionId result) sessions,
           GatewayGenerate q actual (systemPrompt a) :: glog)
      | (inl error, glog) =>
          (inl error, sessions,
           GatewayGenerate q actual (systemPrompt a) :: glog)
      end.
Proof.
  unfold retrieve_and_generate, bind, destructure, ret, throw, await,
    sessions_read.
  destruct (invalid_query (query a)); [reflexivity|]. cbn zeta.
  destruct (retrieveAndGenerate gw _ _ _) as [[error|result] glog]; cbn;
    [reflexivity|].
  rewrite store_session_run. now rewrite !app_nil_r.
Qed.

Lemma create_session_run now a sessions :
  create_session now (Some a) sessions
  = let sessionId := or_else (sessionName a) (generated_handle now) in
    (inr (text_result
            (Payload.SessionCreated sessionId "Session created successfully")),
     JsMap.set sessionId "" sessions, []).
Proof. reflexivity. Qed.


(** A call without an argument bag fails at the destructuring. *)
Lemma destructure_undefined {X : Type} first (k : Arguments -> M X) sessions :
  (a <- destructure first None ;; k a) sessions
  = (inl (ThrowError ("Cannot destructure property '" +:+ first
                      +:+ "' of 'args' as it is undefined.")),
     sessions, []).
Proof. reflexivity. Qed.

Lemma invalid_query_true (v : JsVal) :
  invalid_query v = true <-> typeof v <> "string" \/ v = JStr "".
Proof.
  unfold invalid_query. split.
  - destruct v as [| |b|q| |s|]; cbn; try (intros _; left; discriminate).
    unfold truthy_string. destruct (decide (s = "")) as [->|Hs]; cbn.
    + intros _. now right.
    + discriminate.
  - intros [Hty| ->]; [|reflexivity].
    destruct v as [| |b|q| |s|]; cbn in *; try reflexivity;
      try apply orb_true_r.
    now contradiction Hty.
Qed.

Lemma invalid_query_false (v : JsVal) :
  invalid_query v = false <-> exists s, v = JStr s /\ s <> "".
Proof.
  split.
  - unfold invalid_query. intros H. destruct v as [| |b|q| |s|]; cbn in H;
      try discriminate; try (rewrite orb_true_r in H; discriminate).
    exists s. split; [reflexivity|]. rewrite orb_false_r in H.
    apply negb_false_iff in H. now apply truthy_string_true.
  - intros (s & -> & Hs). unfold invalid_query. cbn.
    apply truthy_string_true in Hs. now rewrite Hs.
Qed.

(** ** Validation, routing and shaping *)

(** C6: a [retrieve_knowledge] or [retrieve_and_generate] call whose
    argument bag has no [query], a [query] that is not a string, or the
    empty string, is rejected with [InvalidParams]; the registry is the
    one before the call and no collaborator was called. *)
Theorem query_required gw now request a sessions :
  name request = "retrieve_knowledge"
  \/ name request = "retrieve_and_generate" ->
  arguments request = Some a ->
  query a = JUndefined \/ typeof (query a) <> "string" \/ query a = JStr "" ->
  callTool gw now request sessions
  = (inl {| code := InvalidParams;
            message := "Query is required and must be a string" |},
     sessions, []).
Proof.
  intros Hname Hargs Hquery.
  assert (Hinv : invalid_query (query a) = true).
  { apply invalid_query_true.
    destruct Hquery as [H|[H|H]]; [left; now rewrite H | now left | now right]. }
  unfold callTool.
  destruct Hname as [Hname|Hname].
  - rewrite (dispatch_retrieve_knowledge _ _ _ Hname), Hargs,
      retrieve_knowledge_run, Hinv. reflexivity.
  - rewrite (dispatch_retrieve_and_generate _ _ _ Hname), Hargs,
      retrieve_and_generate_run, Hinv. reflexivity.
Qed.

Lemma query_required_witness :
  callTool (stub_gateway None) 0
    (call "retrieve_and_generate" (arguments_of (JNum 3) (Some "energy")))
    [("energy", "tok-0")]
  = (inl {| code := InvalidParams;
            message := "Query is required and must be a string" |},
     [("energy", "tok-0")], []).
Proof.
  apply (query_required (stub_gateway None) 0
           (call "retrieve_and_generate" (arguments_of (JNum 3) (Some "energy")))
           (arguments_of (JNum 3) (Some "energy"))).
  - right. reflexivity.
  - reflexivity.
  - right. left. discriminate.
Defined.

(** C8: a call whose name is none of the four cataloged tools is rejected
    with [MethodNotFound], and the message carries the name. *)
Theorem unknown_tool gw now request sessions :
  name request ∉ tool_names ->
  callTool gw now request sessions
  = (inl {| code := MethodNotFound;
            message := "Unknown tool: " +:+ name request |},
     sessions, [])
  /\ includes ("Unknown tool: " +:+ name request) (name request).
Proof.
  intros Hname. split; [|apply includes_suffix].
  unfold callTool. now rewrite (dispatch_default _ _ _ Hname).
Qed.

Lemma unknown_tool_witness :
  callTool (stub_gateway None) 0
    {| name := "delete_everything"; arguments := None |} []
  = (inl {| code := MethodNotFound;
            message := "Unknown tool: delete_everything" |}, [], [])
  /\ includes "Unknown tool: delete_everything" "delete_everything".
Proof.
  apply (unknown_tool (stub_gateway None) 0
           {| name := "delete_everything"; arguments := None |} []).
  apply (bool_decide_unpack _). vm_compute. reflexivity.
Defined.

(** The handler never reads [maxResults]: two argument bags that differ
    only there are handled alike. *)
Lemma maxResults_unread gw now tool a mr sessions :
  callTool gw now
    (call tool {| query := query a; sessionId := sessionId a;
                  systemPrompt := systemPrompt a;
                  sessionName := sessionName a; maxResults := mr |})
    sessions
  = callTool gw now (call tool a) sessions.
Proof.
  unfold callTool, dispatch, call. cbn [name arguments].
  repeat (destruct (decide _); [reflexivity|]). reflexivity.
Qed.

(** C1, on the code: [retrieve_knowledge] with [maxResults] 0, 101 or 50,
    against the stub gateway, settles with the shaped results in each case;
    the gateway is called and no [InvalidParams] is raised. *)
Theorem maxResults_out_of_bound_accepted :
  let run mr :=
    callTool (stub_gateway None) 0
      (call "retrieve_knowledge"
         {| query := JStr "x"; sessionId := None; systemPrompt := None;
            sessionName := None; maxResults := Some mr |}) [] in
  let shaped :=
    text_result
      (Payload.Retrieved "x" (imap shape_result [result_A; result_B]) 2) in
  run 0%Z = (inr shaped, [], [GatewayRetrieve "x" None])
  /\ run 101%Z = (inr shaped, [], [GatewayRetrieve "x" None])
  /\ run 50%Z = (inr shaped, [], [GatewayRetrieve "x" None]).
Proof. cbv zeta. repeat split; vm_compute; reflexivity. Qed.



(** The rank-assignment example, evaluated. *)
Example rank_assignment :
  outcome (callTool (stub_gateway None) 0
             (call "retrieve_knowledge" (arguments_of (JStr "q") None)) [])
  = inr (text_result
           (Payload.Retrieved "q"
              [ {| Payload.rank := 1; Payload.content := "A";
                   Payload.score := Some (95 # 100);
                   Payload.source := "Unknown"; Payload.metadata := None |};
                {| Payload.rank := 2; Payload.content := "B";
                   Payload.score := Some (88 # 100);
                   Payload.source := "s3://bucket/b";
                   Payload.metadata := None |} ]
              2)).
Proof. reflexivity. Qed.

Lemma includes_trans (s x y : string) :
  includes s x -> includes x y -> includes s y.
Proof.
  intros (p1 & q1 & ->) (p2 & q2 & ->).
  exists (p1 +:+ p2), (q2 +:+ q1). now rewrite !append_assoc.
Qed.

(** The [catch] block: an [McpError] passes unchanged; another [Error] is
    wrapped with the tool's name and its message. *)
Lemma on_error_spec request error :
  match error with
  | ThrowMcp typed => on_error request error = typed
  | ThrowError msg =>
      on_error request error
      = {| code := InternalError;
           message := "Error executing tool " +:+ name request +:+ ": "
                      +:+ msg |}
      /\ includes (message (on_error request error)) (name request)
      /\ includes (message (on_error request error)) msg
  | ThrowOther _ =>
      on_error request error
      = {| code := InternalError;
           message := "Error executing tool " +:+ name request
                      +:+ ": Unknown error" |}
  end.
Proof.
  destruct error as [typed|msg|v]; cbn; try reflexivity.
  split; [reflexivity|]. split.
  - apply includes_append_l, includes_append_r, includes_refl.
  - apply includes_append_l, includes_append_l, includes_suffix.
Qed.

(** What the handler does when the gateway call rejects. *)
Lemma gateway_rejection gw now request a q sessions error glog :
  arguments request = Some a ->
  query a = JStr q ->
  q <> "" ->
  name request = "retrieve_knowledge"
    /\ retrieve gw q (sessionId a) = (inl error, glog)
  \/ name request = "retrieve_and_generate"
    /\ retrieveAndGenerate gw q (resolve sessions (sessionId a))
         (systemPrompt a) = (inl error, glog) ->
  outcome (callTool gw now request sessions) = inl (on_error request error)
  /\ registry_after (callTool gw now request sessions) = sessions.
Proof.
  intros Hargs Hquery Hq Hcase.
  assert (Hinv : invalid_query (query a) = false).
  { apply invalid_query_false. now exists q. }
  unfold callTool, outcome, registry_after.
  destruct Hcase as [[Hname Hgw]|[Hname Hgw]].
  - rewrite (dispatch_retrieve_knowledge _ _ _ Hname), Hargs,
      retrieve_knowledge_run, Hinv, Hquery. cbn [as_string].
    now rewrite Hgw.
  - rewrite (dispatch_retrieve_and_generate _ _ _ Hname), Hargs,
      retrieve_and_generate_run, Hinv, Hquery. cbn [as_string].
    now rewrite Hgw.
Qed.

Lemma starts_with_append (needle post : string) :
  starts_with needle (needle +:+ post) = true.
Proof.
  induction needle as [|c needle IH]; [reflexivity|].
  rewrite append_cons. cbn [starts_with]. now rewrite decide_True.
Qed.

(** [includesb] finds every occurrence [includes] speaks of. *)
Lemma includes_includesb (haystack needle : string) :
  includes haystack needle -> includesb haystack needle = true.
Proof.
  intros (pre & post & ->). induction pre as [|c pre IH].
  - change ("" +:+ needle +:+ post) with (needle +:+ post).
    destruct (needle +:+ post) eqn:E; cbn [includesb];
      rewrite <- E, starts_with_append; reflexivity.
  - rewrite append_cons. cbn [includesb]. rewrite IH. apply orb_true_r.
Qed.

(** C4, as the claim states it, at a thrown value that is not an [Error]:
    a gateway double that rejects with the string ["boom"], and the real
    client over an SDK client that rejects with it.  The handler rejects
    with [InternalError] whose message ends in ["Unknown error"]; the
    thrown text is not in it. *)
Lemma non_error_message_lost :
  let request := call "retrieve_knowledge" (arguments_of (JStr "q") None) in
  let thrown := ThrowOther (JStr "boom") in
  outcome (callTool (rejecting_gateway thrown) 0 request [])
  = inl {| code := InternalError;
           message := "Error executing tool retrieve_knowledge: Unknown error" |}
  /\ ~ includes "Error executing tool retrieve_knowledge: Unknown error" "boom"
  /\ outcome (callTool
                (BedrockKnowledgeBaseClient.new stub_config
                   (throwing_backend thrown)) 0 request [])
     = inl {| code := InternalError;
              message := "Error executing tool retrieve_knowledge: Failed to retrieve from knowledge base: Unknown error" |}
  /\ ~ includes
        "Error executing tool retrieve_knowledge: Failed to retrieve from knowledge base: Unknown error"
        "boom".
Proof.
  cbv zeta. split; [reflexivity|]. split; [|split; [reflexivity|]].
  - intros H. apply includes_includesb in H. vm_compute in H. discriminate.
  - intros H. apply includes_includesb in H. vm_compute in H. discriminate.
Qed.

(** C4, amended: (1) when the gateway call of [retrieve_knowledge] or
    [retrieve_and_generate] rejects, the handler rejects with the same
    [McpError] if it was one; with [InternalError] whose message is
    ["Error executing tool <name>: <message>"], which holds the tool's name
    and the original message, if it was another [Error]; and with
    [InternalError] whose message is
    ["Error executing tool <name>: Unknown error"] if the thrown value was
    no [Error]; (2) whatever typed error is thrown inside the handler is
    what the handler rejects with; (3) with the real client, when the SDK's
    [send] rejects with an [Error], the handler rejects [retrieve_knowledge]
    with [InternalError] and every substring of the SDK's message, such as
    ["ThrottlingException"], is in the handler's message. *)
Theorem errors_wrapped_once :
  (forall gw now request a q sessions error glog,
      arguments request = Some a ->
      query a = JStr q ->
      q <> "" ->
      name request = "retrieve_knowledge"
        /\ retrieve gw q (sessionId a) = (inl error, glog)
      \/ name request = "retrieve_and_generate"
        /\ retrieveAndGenerate gw q (resolve sessions (sessionId a))
             (systemPrompt a) = (inl error, glog) ->
      exists e,
        outcome (callTool gw now request sessions) = inl e
        /\ match error with
           | ThrowMcp typed => e = typed
           | ThrowError msg =>
               e = {| code := InternalError;
                      message := "Error executing tool " +:+ name request
                                 +:+ ": " +:+ msg |}
               /\ includes (message e) (name request)
               /\ includes (message e) msg
           | ThrowOther _ =>
               e = {| code := InternalError;
                      message := "Error executing tool " +:+ name request
                                 +:+ ": Unknown error" |}
               /\ includes (message e) (name request)
           end)
  /\ (forall gw now request sessions typed sessions' log,
        dispatch gw now request sessions = (inl (ThrowMcp typed), sessions', log) ->
        callTool gw now request sessions = (inl typed, sessions', log))
  /\ (forall config msg now a q sessions needle,
        query a = JStr q ->
        q <> "" ->
        includes msg needle ->
        exists e,
          outcome (callTool
                     (BedrockKnowledgeBaseClient.new config (failing_backend msg))
                     now (call "retrieve_knowledge" a) sessions) = inl e
          /\ code e = InternalError
          /\ includes (message e) "retrieve_knowledge"
          /\ includes (message e) needle).
Proof.
  split; [|split].
  - intros gw now request a q sessions error glog Hargs Hquery Hq Hcase.
    destruct (gateway_rejection gw now request a q sessions error glog
                Hargs Hquery Hq Hcase) as [Hout _].
    exists (on_error request error). split; [exact Hout|].
    pose proof (on_error_spec request error) as Hspec.
    destruct error as [typed|msg|v].
    + exact Hspec.
    + destruct Hspec as (He & Hn & Hm). rewrite He in *. auto.
    + rewrite Hspec. cbn [message]. split; [reflexivity|].
      apply includes_append_l, includes_append_r, includes_refl.
  - intros gw now request sessions typed sessions' log Hd.
    unfold callTool. now rewrite Hd.
  - intros config msg now a q sessions needle Hquery Hq Hneedle.
    set (gw := BedrockKnowledgeBaseClient.new config (failing_backend msg)).
    set (wrapped := "Failed to retrieve from knowledge base: " +:+ msg).
    destruct (gateway_rejection gw now (call "retrieve_knowledge" a) a q
                sessions (ThrowError wrapped)
                [BackendRetrieve
                   (BedrockKnowledgeBaseClient.retrieve_input config q
                      (sessionId a))]
                eq_refl Hquery Hq) as [Hout _].
    { left. split; reflexivity. }
    eexists. split; [exact Hout|].
    destruct (on_error_spec (call "retrieve_knowledge" a) (ThrowError wrapped))
      as (He & Hn & Hm).
    split; [now rewrite He|]. split; [exact Hn|].
    eapply includes_trans; [exact Hm|].
    unfold wrapped. now apply includes_append_l.
Qed.

Lemma errors_wrapped_once_witness :
  exists e,
    outcome (callTool
               (BedrockKnowledgeBaseClient.new stub_config
                  (failing_backend "ThrottlingException: Request rate exceeded"))
               0 (call "retrieve_knowledge" (arguments_of (JStr "q") None)) [])
    = inl e
    /\ code e = InternalError
    /\ includes (message e) "retrieve_knowledge"
    /\ includes (message e) "ThrottlingException".
Proof.
  apply (proj2 (proj2 errors_wrapped_once) stub_config
           "ThrottlingException: Request rate exceeded" 0%N
           (arguments_of (JStr "q") None) "q" [] "ThrottlingException").
  - reflexivity.
  - discriminate.
  - exists "", ": Request rate exceeded". reflexivity.
Defined.

(** The backend-failure example, evaluated. *)
Example throttling_message :
  outcome (callTool
             (BedrockKnowledgeBaseClient.new stub_config
                (failing_backend "ThrottlingException"))
             0 (call "retrieve_knowledge" (arguments_of (JStr "q") None)) [])
  = inl {| code := InternalError;
           message := "Error executing tool retrieve_knowledge: Failed to retrieve from knowledge base: ThrottlingException" |}.
Proof. reflexivity. Qed.

(** ** Session continuity *)

Lemma resolve_hit sessions sid tok :
  sid <> "" -> JsMap.get sid sessions = Some tok ->
  resolve sessions (Some sid) = Some tok.
Proof.
  intros Hsid Hget. unfold resolve, JsMap.has.
  apply truthy_string_true in Hsid. now rewrite Hsid, Hget.
Qed.

Lemma resolve_miss sessions sid :
  JsMap.get sid sessions = None -> resolve sessions (Some sid) = Some sid.
Proof.
  intros Hget. unfold resolve, JsMap.has. rewrite Hget.
  now rewrite andb_false_r.
Qed.

Lemma stored_supplied now sid tok sessions :
  sid <> "" -> tok <> "" ->
  stored now (Some sid) (Some tok) sessions = JsMap.set sid tok sessions.
Proof.
  intros Hsid Htok. unfold stored, store_session.
  apply truthy_string_true in Hsid, Htok. now rewrite Hsid, Htok.
Qed.

(** The log of a [retrieve_and_generate] call that passes validation
    starts with the gateway call, made with the resolved continuation. *)
Lemma retrieve_and_generate_log gw now request a q sessions :
  name request = "retrieve_and_generate" ->
  arguments request = Some a ->
  query a = JStr q ->
  q <> "" ->
  call_log (callTool gw now request sessions)
  = GatewayGenerate q (resolve sessions (sessionId a)) (systemPrompt a)
    :: (retrieveAndGenerate gw q (resolve sessions (sessionId a))
          (systemPrompt a)).2.
Proof.
  intros Hname Hargs Hquery Hq.
  assert (Hinv : invalid_query (query a) = false).
  { apply invalid_query_false. now exists q. }
  unfold callTool, call_log.
  rewrite (dispatch_retrieve_and_generate _ _ _ Hname), Hargs,
    retrieve_and_generate_run, Hinv, Hquery. cbn [as_string].
  now destruct (retrieveAndGenerate gw _ _ _) as [[error|result] glog].
Qed.

(** What a [retrieve_and_generate] call does when the gateway resolves. *)
Lemma retrieve_and_generate_success gw now request a q sessions result glog :
  name request = "retrieve_and_generate" ->
  arguments request = Some a ->
  query a = JStr q ->
  q <> "" ->
  retrieveAndGenerate gw q (resolve sessions (sessionId a)) (systemPrompt a)
  = (inr result, glog) ->
  callTool gw now request sessions
  = (inr (shape_generated q result),
     stored now (sessionId a) (Types.sessionId result) sessions,
     GatewayGenerate q (resolve sessions (sessionId a)) (systemPrompt a)
     :: glog).
Proof.
  intros Hname Hargs Hquery Hq Hgw.
  assert (Hinv : invalid_query (query a) = false).
  { apply invalid_query_false. now exists q. }
  unfold callTool.
  rewrite (dispatch_retrieve_and_generate _ _ _ Hname), Hargs,
    retrieve_and_generate_run, Hinv, Hquery. cbn [as_string].
  now rewrite Hgw.
Qed.

(** C2, as the claim states it, at the empty [sessionId]: the token of the
    response is stored under a generated handle, the registry has no entry
    for [""], and a second call with the same [sessionId] passes [""], not
    the new token, to the gateway. *)
Lemma empty_sessionId_not_updated :
  let request :=
    call "retrieve_and_generate" (arguments_of (JStr "q") (Some "")) in
  let first := callTool (stub_gateway (Some "tok-1")) 7 request [] in
  let second :=
    callTool (stub_gateway (Some "tok-2")) 8 request (registry_after first) in
  outcome first
  = inr (text_result (Payload.Generated "q" "r" (Some "tok-1") None))
  /\ registry_after first = [("session_7", "tok-1")]
  /\ JsMap.get "" (registry_after first) = None
  /\ call_log second = [GatewayGenerate "q" (Some "") None]
  /\ call_log second <> [GatewayGenerate "q" (Some "tok-1") None].
Proof. cbv zeta. repeat split; try reflexivity. discriminate. Qed.

(** C2, amended: for a [retrieve_and_generate] call with a non-empty
    [sessionId], (1) if the registry has an entry for it the gateway is
    called with the stored token, (2) if it has none the gateway is called
    with the supplied value, and (3) when the gateway resolves with a
    non-empty token, the handler settles, the registry maps the supplied
    handle to that token, and a later call with the same [sessionId]
    calls the gateway with that token. *)
Theorem session_continuity gw now request a q sid sessions :
  name request = "retrieve_and_generate" ->
  arguments request = Some a ->
  query a = JStr q ->
  q <> "" ->
  sessionId a = Some sid ->
  sid <> "" ->
  (forall tok, JsMap.get sid sessions = Some tok ->
     exists glog,
       call_log (callTool gw now request sessions)
       = GatewayGenerate q (Some tok) (systemPrompt a) :: glog)
  /\ (JsMap.get sid sessions = None ->
      exists glog,
        call_log (callTool gw now request sessions)
        = GatewayGenerate q (Some sid) (systemPrompt a) :: glog)
  /\ (forall result glog tok,
        retrieveAndGenerate gw q (resolve sessions (Some sid)) (systemPrompt a)
        = (inr result, glog) ->
        Types.sessionId result = Some tok ->
        tok <> "" ->
        let after := registry_after (callTool gw now request sessions) in
        outcome (callTool gw now request sessions)
        = inr (shape_generated q result)
        /\ JsMap.get sid after = Some tok
        /\ forall gw' now' request' a' q',
             name request' = "retrieve_and_generate" ->
             arguments request' = Some a' ->
             query a' = JStr q' ->
             q' <> "" ->
             sessionId a' = Some sid ->
             exists glog',
               call_log (callTool gw' now' request' after)
               = GatewayGenerate q' (Some tok) (systemPrompt a') :: glog').
Proof.
  intros Hname Hargs Hquery Hq Hsid Hne.
  pose proof (retrieve_and_generate_log gw now request a q sessions
                Hname Hargs Hquery Hq) as Hlog.
  rewrite Hsid in Hlog.
  split; [|split].
  - intros tok Hget. rewrite (resolve_hit _ _ _ Hne Hget) in Hlog. eauto.
  - intros Hget. rewrite (resolve_miss _ _ Hget) in Hlog. eauto.
  - intros result glog tok Hgw Htok Htokne after.
    rewrite <- Hsid in Hgw.
    pose proof (retrieve_and_generate_success gw now request a q sessions
                  result glog Hname Hargs Hquery Hq Hgw) as Hrun.
    assert (Hafter : after = JsMap.set sid tok sessions).
    { unfold after. rewrite Hrun, Hsid, Htok. unfold registry_after. cbn.
      now apply stored_supplied. }
    split; [now rewrite Hrun|]. split.
    + rewrite Hafter. apply get_set_eq.
    + intros gw' now' request' a' q' Hname' Hargs' Hquery' Hq' Hsid'.
      rewrite (retrieve_and_generate_log gw' now' request' a' q' after
                 Hname' Hargs' Hquery' Hq'), Hsid'.
      rewrite (resolve_hit after sid tok Hne);
        [eauto | rewrite Hafter; apply get_set_eq].
Qed.

Lemma session_continuity_witness :
  let request :=
    call "retrieve_and_generate" (arguments_of (JStr "q") (Some "energy")) in
  let first := callTool (stub_gateway (Some "tok-1")) 7 request [] in
  call_log first = [GatewayGenerate "q" (Some "energy") None]
  /\ JsMap.get "energy" (registry_after first) = Some "tok-1"
  /\ call_log
       (callTool (stub_gateway (Some "tok-2")) 8 request (registry_after first))
     = [GatewayGenerate "q" (Some "tok-1") None].
Proof.
  cbv zeta.
  destruct (session_continuity (stub_gateway (Some "tok-1")) 7
              (call "retrieve_and_generate"
                 (arguments_of (JStr "q") (Some "energy")))
              (arguments_of (JStr "q") (Some "energy")) "q" "energy" [])
    as (_ & Hmiss & Hupdate);
    [reflexivity | reflexivity | reflexivity | discriminate | reflexivity
    | discriminate |].
  destruct (Hupdate
              {| Types.output_text := "r"; Types.citations := None;
                 Types.sessionId := Some "tok-1" |} [] "tok-1")
    as (_ & Hget & _); [reflexivity | reflexivity | discriminate |].
  split; [reflexivity|]. split; [exact Hget | reflexivity].
Defined.

(** ** [create_session] and [list_sessions] *)






(** The session-echo example, evaluated. *)
Example session_echo :
  let create :=
    call "create_session"
      {| query := JUndefined; sessionId := None; systemPrompt := None;
         sessionName := Some "energy"; maxResults := None |} in
  let created := callTool (stub_gateway None) 7 create [] in
  outcome created
  = inr (text_result
           (Payload.SessionCreated "energy" "Session created successfully"))
  /\ outcome (callTool (stub_gateway None) 8
                {| name := "list_sessions"; arguments := None |}
                (registry_after created))
     = inr (text_result
              (Payload.SessionList
                 [ {| Payload.sessionId := "energy";
                      Payload.bedrockSessionId := None;
                      Payload.active := false |} ] 1)).
Proof. split; reflexivity. Qed.

(** ** The gateway *)

Lemma spread_absent (c : option string) :
  c = None \/ c = Some "" -> BedrockKnowledgeBaseClient.spread c = None.
Proof. intros [->| ->]; reflexivity. Qed.

Lemma spread_present (s : string) :
  s <> "" -> BedrockKnowledgeBaseClient.spread (Some s) = Some s.
Proof.
  intros Hs. unfold BedrockKnowledgeBaseClient.spread.
  apply truthy_string_true in Hs. now rewrite Hs.
Qed.

(** The gateway sends exactly one request per call, the [input] it built. *)
Lemma gateway_sends config client q sid sp :
  (BedrockKnowledgeBaseClient.retrieve config client q sid).2
  = [BackendRetrieve (BedrockKnowledgeBaseClient.retrieve_input config q sid)]
  /\ (BedrockKnowledgeBaseClient.retrieveAndGenerate config client q sid sp).2
     = [BackendGenerate
          (BedrockKnowledgeBaseClient.retrieveAndGenerate_input config q sid sp)].
Proof.
  unfold BedrockKnowledgeBaseClient.retrieve,
    BedrockKnowledgeBaseClient.retrieveAndGenerate.
  split.
  - now destruct (send_retrieve client _).
  - now destruct (send_generate client _).
Qed.

(** C10: (1) the request the gateway sends for [retrieve] has no
    [nextToken], and (2) the one it sends for [retrieveAndGenerate] has no
    [sessionId], when the continuation is absent or the empty string;
    (3) a [retrieve_and_generate] call whose [sessionId] is registered with
    the empty token calls the gateway with that empty token, and the one
    request sent to the backend has no [sessionId]. *)
Theorem empty_continuation_omitted :
  (forall config client q sid,
      sid = None \/ sid = Some "" ->
      exists input,
        (BedrockKnowledgeBaseClient.retrieve config client q sid).2
        = [BackendRetrieve input]
        /\ Aws.nextToken input = None)
  /\ (forall config client q sid sp,
        sid = None \/ sid = Some "" ->
        exists input,
          (BedrockKnowledgeBaseClient.retrieveAndGenerate config client q sid sp).2
          = [BackendGenerate input]
          /\ Aws.sessionId input = None)
  /\ (forall config client now request a q sid sessions,
        name request = "retrieve_and_generate" ->
        arguments request = Some a ->
        query a = JStr q ->
        q <> "" ->
        sessionId a = Some sid ->
        JsMap.get sid sessions = Some "" ->
        exists input,
          call_log (callTool (BedrockKnowledgeBaseClient.new config client)
                      now request sessions)
          = [GatewayGenerate q (Some "") (systemPrompt a);
             BackendGenerate input]
          /\ Aws.sessionId input = None).
Proof.
  split; [|split].
  - intros config client q sid Hsid. eexists. split.
    + apply (gateway_sends config client q sid None).
    + cbn. now apply spread_absent.
  - intros config client q sid sp Hsid. eexists. split.
    + apply (gateway_sends config client q sid sp).
    + cbn. now apply spread_absent.
  - intros config client now request a q sid sessions
      Hname Hargs Hquery Hq Hsid Hget.
    assert (Hres : resolve sessions (Some sid) = Some "").
    { unfold resolve, JsMap.has. rewrite Hget.
      destruct (truthy_string sid) eqn:Ht; [reflexivity|].
      apply truthy_string_false in Ht. now subst sid. }
    rewrite (retrieve_and_generate_log _ now request a q sessions
               Hname Hargs Hquery Hq), Hsid, Hres.
    cbn [retrieveAndGenerate BedrockKnowledgeBaseClient.new].
    rewrite (proj2 (gateway_sends config client q (Some "") (systemPrompt a))).
    eexists. split; [reflexivity|]. reflexivity.
Qed.

Lemma empty_continuation_omitted_witness :
  let create :=
    call "create_session"
      {| query := JUndefined; sessionId := None; systemPrompt := None;
         sessionName := Some "energy"; maxResults := None |} in
  let server :=
    callTool (BedrockKnowledgeBaseClient.new stub_config
                (failing_backend "unreachable")) in
  exists input,
    call_log (server 8%N
                (call "retrieve_and_generate"
                   (arguments_of (JStr "q") (Some "energy")))
                (registry_after (server 7%N create [])))
    = [GatewayGenerate "q" (Some "") None; BackendGenerate input]
    /\ Aws.sessionId input = None.
Proof.
  cbv zeta.
  apply (proj2 (proj2 empty_continuation_omitted) stub_config
           (failing_backend "unreachable") 8%N
           (call "retrieve_and_generate"
              (arguments_of (JStr "q") (Some "energy")))
           (arguments_of (JStr "q") (Some "energy")) "q" "energy").
  - reflexivity.
  - reflexivity.
  - reflexivity.
  - discriminate.
  - reflexivity.
  - reflexivity.
Defined.

(** C9, as the claim states it, at a backend result without score,
    locator and metadata, and a generation response without citations:
    the normalized values leave all four absent. *)
Lemma optional_fields_stay_absent :
  let bare :=
    {| Aws.content_text := Some "t"; Aws.location := None;
       Aws.score := None; Aws.metadata := None |} in
  let client :=
    stub_backend {| Aws.retrievalResults := Some [bare] |}
      {| Aws.output_text := Some "r"; Aws.citations := None;
         Aws.response_sessionId := None |} in
  (BedrockKnowledgeBaseClient.retrieve stub_config client "q" None).1
  = inr [ {| Types.content_text := "t"; Types.location := None;
             Types.score := None; Types.metadata := None |} ]
  /\ (BedrockKnowledgeBaseClient.retrieveAndGenerate stub_config client
        "q" None None).1
     = inr {| Types.output_text := "r"; Types.citations := None;
              Types.sessionId := None |}.
Proof. cbv zeta. split; reflexivity. Qed.

(** [x || ''] on an optional text. *)
Lemma or_else_empty (x : option string) :
  or_else x "" = match x with Some s => s | None => "" end.
Proof.
  destruct x as [s|]; [|reflexivity]. unfold or_else, truthy_string.
  now destruct (decide (s = "")).
Qed.

(** C9, amended: the gateway defaults an absent result list and an absent
    reference list to the empty list, an absent text to the empty string
    and an absent span offset to 0; score, locator, metadata, the citation
    list and the continuation token are passed through as they are,
    absent when the backend left them out. *)
Theorem gateway_defaults :
  (forall config client q sid response,
      send_retrieve client
        (BedrockKnowledgeBaseClient.retrieve_input config q sid)
      = inr response ->
      exists results,
        (BedrockKnowledgeBaseClient.retrieve config client q sid).1
        = inr results
        /\ (Aws.retrievalResults response = None -> results = [])
        /\ forall raw, Aws.retrievalResults response = Some raw ->
             length results = length raw
             /\ forall i r, raw !! i = Some r ->
                  exists n, results !! i = Some n
                    /\ Types.content_text n
                       = match Aws.content_text r with
                         | Some t => t
                         | None => ""
                         end
                    /\ Types.location n = Aws.location r
                    /\ Types.score n = Aws.score r
                    /\ Types.metadata n = Aws.metadata r)
  /\ (forall config client q sid sp response,
        send_generate client
          (BedrockKnowledgeBaseClient.retrieveAndGenerate_input config q sid sp)
        = inr response ->
        exists result,
          (BedrockKnowledgeBaseClient.retrieveAndGenerate config client q sid sp).1
          = inr result
          /\ Types.output_text result
             = match Aws.output_text response with
               | Some t => t
               | None => ""
               end
          /\ Types.sessionId result = Aws.response_sessionId response
          /\ (Aws.citations response = None -> Types.citations result = None)
          /\ forall raw, Aws.citations response = Some raw ->
               exists cs, Types.citations result = Some cs
                 /\ length cs = length raw
                 /\ forall i c, raw !! i = Some c ->
                      exists n, cs !! i = Some n
                        /\ Types.part_text n
                           = match Aws.part_text c with
                             | Some t => t
                             | None => ""
                             end
                        /\ Types.start (Types.part_span n)
                           = match Aws.span_start c with
                             | Some z => z
                             | None => 0%Z
                             end
                        /\ Types.end_ (Types.part_span n)
                           = match Aws.span_end c with
                             | Some z => z
                             | None => 0%Z
                             end
                        /\ (Aws.retrievedReferences c = None ->
                            Types.retrievedReferences n = [])
                        /\ forall refs,
                             Aws.retrievedReferences c = Some refs ->
                             Types.retrievedReferences n
                             = map (fun ref =>
                                      {| Types.ref_content_text :=
                                           match Aws.ref_content_text ref with
                                           | Some t => t
                                           | None => ""
                                           end;
                                         Types.ref_location :=
                                           Aws.ref_location ref;
                                         Types.ref_metadata :=
                                           Aws.ref_metadata ref |}) refs).
Proof.
  split.
  - intros config client q sid response Hsend.
    unfold BedrockKnowledgeBaseClient.retrieve. rewrite Hsend. cbn [fst].
    eexists. split; [reflexivity|]. split.
    + intros Hnone. now rewrite Hnone.
    + intros raw Hraw. rewrite Hraw. cbn [BedrockKnowledgeBaseClient.or_nil].
      split; [apply length_map|].
      intros i r Hi. exists (BedrockKnowledgeBaseClient.retrieve_result r).
      change (map BedrockKnowledgeBaseClient.retrieve_result raw)
        with (BedrockKnowledgeBaseClient.retrieve_result <$> raw).
      rewrite list_lookup_fmap, Hi. cbn. rewrite or_else_empty.
      repeat split; reflexivity.
  - intros config client q sid sp response Hsend.
    unfold BedrockKnowledgeBaseClient.retrieveAndGenerate.
    rewrite Hsend. cbn [fst].
    eexists. split; [reflexivity|]. cbn.
    split; [apply or_else_empty|]. split; [reflexivity|]. split.
    + intros Hnone. now rewrite Hnone.
    + intros raw Hraw. rewrite Hraw. eexists. split; [reflexivity|].
      split; [apply length_map|].
      intros i c Hi. exists (BedrockKnowledgeBaseClient.generate_citation c).
      change (map BedrockKnowledgeBaseClient.generate_citation raw)
        with (BedrockKnowledgeBaseClient.generate_citation <$> raw).
      rewrite list_lookup_fmap, Hi. cbn. rewrite or_else_empty.
      repeat split; try reflexivity.
      * intros Hnone. now rewrite Hnone.
      * intros refs Hrefs. rewrite Hrefs. cbn.
        apply map_ext. intros ref.
        unfold BedrockKnowledgeBaseClient.generate_reference.
        now rewrite or_else_empty.
Qed.

Lemma gateway_defaults_witness :
  exists results,
    (BedrockKnowledgeBaseClient.retrieve stub_config
       (stub_backend {| Aws.retrievalResults := None |}
          {| Aws.output_text := None; Aws.citations := None;
             Aws.response_sessionId := None |})
       "q" None).1 = inr results
    /\ results = [].
Proof.
  destruct (proj1 gateway_defaults stub_config
              (stub_backend {| Aws.retrievalResults := None |}
                 {| Aws.output_text := None; Aws.citations := None;
                    Aws.response_sessionId := None |})
              "q" None {| Aws.retrievalResults := None |} eq_refl)
    as (results & Hrun & Hnone & _).
  exists results. split; [exact Hrun | now apply Hnone].
Defined.

(** ** The registry over a sequence of calls *)

(** Every call changes the registry by exactly the write its envelope
    stands for. *)
Lemma serve_write c sessions :
  registry_after (serve c sessions)
  = match write_of {| completed_call := c;
                      completed_outcome := outcome (serve c sessions) |} with
    | Some w => JsMap.set w.1 w.2 sessions
    | None => sessions
    end.
Proof.
  destruct c as [gw now [tool args]].
  unfold serve, callTool, dispatch, write_of, write_handle, outcome,
    registry_after.
  cbn [call_gateway call_now call_request name arguments completed_outcome
       completed_call].
  destruct (decide (tool = "retrieve_knowledge")) as [_|_].
  { destruct args as [a|]; [|reflexivity].
    rewrite retrieve_knowledge_run.
    destruct (invalid_query (query a)); [reflexivity|]. cbn zeta.
    now destruct (retrieve gw _ _) as [[error|results] glog]. }
  destruct (decide (tool = "retrieve_and_generate")) as [_|_].
  { destruct args as [a|]; [|reflexivity].
    rewrite retrieve_and_generate_run.
    destruct (invalid_query (query a)); [reflexivity|]. cbn zeta.
    destruct (retrieveAndGenerate gw _ _ _) as [[error|result] glog];
      [reflexivity|].
    cbn. unfold stored, store_session, sessions_set, ret, registry_after.
    destruct (Types.sessionId result) as [tok|]; [|reflexivity].
    destruct (truthy_string tok); [|reflexivity].
    destruct (sessionId a) as [sid|]; [|reflexivity].
    cbn. now destruct (truthy_string sid). }
  destruct (decide (tool = "create_session")) as [_|_].
  { destruct args as [a|]; reflexivity. }
  destruct (decide (tool = "list_sessions")) as [_|_]; reflexivity.
Qed.

Lemma run_NoDup calls sessions :
  NoDup sessions.*1 -> NoDup (run calls sessions).1.*1.
Proof.
  revert sessions. induction calls as [|c rest IH]; intros sessions Hnd;
    [exact Hnd|].
  cbn [run fst]. apply IH. rewrite serve_write.
  destruct (write_of _) as [w|]; [now apply NoDup_keys_set | exact Hnd].
Qed.

Lemma run_last_write calls sessions handle :
  JsMap.get handle (run calls sessions).1
  = last_write_from (JsMap.get handle sessions) handle
      (omap write_of (run calls sessions).2).
Proof.
  revert sessions. induction calls as [|c rest IH]; intros sessions;
    [reflexivity|].
  cbn [run fst snd omap list_omap]. rewrite IH, serve_write.
  destruct (write_of _) as [w|]; [|reflexivity].
  unfold last_write_from. cbn [foldl]. now rewrite get_set.
Qed.

(** A rejected call leaves the registry as it was. *)
Lemma rejected_unchanged gw now request sessions e :
  outcome (callTool gw now request sessions) = inl e ->
  registry_after (callTool gw now request sessions) = sessions.
Proof.
  intros Hout.
  pose proof (serve_write
                {| call_gateway := gw; call_now := now;
                   call_request := request |} sessions) as Hw.
  unfold serve in Hw. cbn [call_gateway call_now call_request] in Hw.
  rewrite Hw. unfold write_of. cbn [completed_outcome]. now rewrite Hout.
Qed.

(** C5: (1) after any sequence of calls from the empty registry, no handle
    is registered twice, and the token of each handle is the one of the
    last write to it in the history, where the writes are the empty token
    of each [create_session] and the non-empty token of each
    [retrieve_and_generate] response; a handle never written is not
    registered; (2) a rejected call, in particular one that fails
    validation, leaves the registry as it was; (3) so does a
    [retrieve_and_generate] call that settles on a response without a
    continuation token. *)
Theorem registry_last_write_wins :
  (forall calls,
      NoDup (run calls JsMap.empty).1.*1
      /\ forall handle,
           JsMap.get handle (run calls JsMap.empty).1
           = last_write handle (omap write_of (run calls JsMap.empty).2))
  /\ (forall gw now request sessions e,
        outcome (callTool gw now request sessions) = inl e ->
        registry_after (callTool gw now request sessions) = sessions)
  /\ (forall gw now request a q sessions result glog,
        name request = "retrieve_and_generate" ->
        arguments request = Some a ->
        query a = JStr q ->
        q <> "" ->
        retrieveAndGenerate gw q (resolve sessions (sessionId a))
          (systemPrompt a) = (inr result, glog) ->
        Types.sessionId result = None \/ Types.sessionId result = Some "" ->
        outcome (callTool gw now request sessions)
        = inr (shape_generated q result)
        /\ registry_after (callTool gw now request sessions) = sessions).
Proof.
  split; [|split].
  - intros calls. split.
    + apply run_NoDup. apply NoDup_nil_2.
    + intros handle. apply run_last_write.
  - apply rejected_unchanged.
  - intros gw now request a q sessions result glog
      Hname Hargs Hquery Hq Hgw Htoken.
    rewrite (retrieve_and_generate_success gw now request a q sessions
               result glog Hname Hargs Hquery Hq Hgw).
    split; [reflexivity|].
    unfold registry_after, stored, store_session, ret. cbn.
    now destruct Htoken as [-> | ->].
Qed.

(** The same, on the finite-map view: the registry is the fold of the
    writes by [insert]. *)
Lemma run_view calls sessions :
  JsMap.view (run calls sessions).1
  = foldl (fun (m : gmap string string) w => <[w.1 := w.2]> m)
      (JsMap.view sessions) (omap write_of (run calls sessions).2).
Proof.
  revert sessions. induction calls as [|c rest IH]; intros sessions;
    [reflexivity|].
  cbn [run fst snd omap list_omap]. rewrite IH, serve_write.
  destruct (write_of _) as [w|]; [|reflexivity].
  cbn [foldl]. now rewrite view_set.
Qed.

Lemma registry_last_write_wins_witness :
  let create :=
    call "create_session"
      {| query := JUndefined; sessionId := None; systemPrompt := None;
         sessionName := Some "energy"; maxResults := None |} in
  let generate := call "retrieve_and_generate" in
  let calls :=
    [ {| call_gateway := stub_gateway None; call_now := 1;
         call_request := create |};
      {| call_gateway := stub_gateway (Some "tok-1"); call_now := 2;
         call_request := generate (arguments_of (JStr "q") (Some "energy")) |};
      {| call_gateway := stub_gateway (Some "tok-2"); call_now := 3;
         call_request := generate (arguments_of JNull (Some "energy")) |};
      {| call_gateway := stub_gateway None; call_now := 4;
         call_request := generate (arguments_of (JStr "q") (Some "energy")) |};
      {| call_gateway := stub_gateway (Some "tok-3"); call_now := 5;
         call_request := generate (arguments_of (JStr "q") None) |} ] in
  omap write_of (run calls JsMap.empty).2
  = [("energy", ""); ("energy", "tok-1"); ("session_5", "tok-3")]
  /\ JsMap.get "energy" (run calls JsMap.empty).1 = Some "tok-1"
  /\ (run calls JsMap.empty).1 = [("energy", "tok-1"); ("session_5", "tok-3")].
Proof.
  cbv zeta. split; [reflexivity|]. split; [|reflexivity].
  rewrite (proj2 (proj1 registry_last_write_wins _) "energy"). reflexivity.
Defined.

(** * Further properties of the handler, the client and the start-up *)

(** ** [retrieve_knowledge] and the registry *)

(** X1: [retrieve_knowledge] neither reads nor writes the registry, and does
    not read the clock: its outcome and its calls are the same from any
    registry, the registry is left as it was, and a [sessionId] goes to
    the gateway as it was supplied, even when it is a registered handle. *)
Theorem retrieve_knowledge_stateless gw now now' request sessions sessions' :
  name request = "retrieve_knowledge" ->
  outcome (callTool gw now request sessions)
  = outcome (callTool gw now' request sessions')
  /\ call_log (callTool gw now request sessions)
     = call_log (callTool gw now' request sessions')
  /\ registry_after (callTool gw now request sessions) = sessions
  /\ forall a q,
       arguments request = Some a -> query a = JStr q -> q <> "" ->
       call_log (callTool gw now request sessions)
       = GatewayRetrieve q (sessionId a) :: (retrieve gw q (sessionId a)).2.
Proof.
  intros Hname. unfold callTool, outcome, call_log, registry_after.
  rewrite !(dispatch_retrieve_knowledge _ _ _ Hname).
  destruct (arguments request) as [a|].
  - rewrite !retrieve_knowledge_run.
    destruct (invalid_query (query a)) eqn:Hinv.
    + repeat split; try reflexivity.
      intros a' q [= <-] Hquery Hq.
      assert (invalid_query (query a) = false) as Hv
          by (apply invalid_query_false; eauto).
      congruence.
    + cbn zeta.
      destruct (retrieve gw (as_string (query a)) (sessionId a))
        as [[error|results] glog] eqn:Hgw;
        (repeat split; try reflexivity;
         intros a' q [= <-] Hquery Hq;
         rewrite Hquery in Hgw |- *; cbn [as_string] in Hgw |- *;
         now rewrite Hgw).
  - repeat split; try reflexivity. intros a q [=].
Qed.

Lemma retrieve_knowledge_stateless_witness :
  let request :=
    call "retrieve_knowledge" (arguments_of (JStr "q") (Some "energy")) in
  call_log (callTool (stub_gateway None) 1 request [("energy", "tok-1")])
  = [GatewayRetrieve "q" (Some "energy")]
  /\ registry_after
       (callTool (stub_gateway None) 1 request [("energy", "tok-1")])
     = [("energy", "tok-1")].
Proof.
  cbv zeta.
  destruct (retrieve_knowledge_stateless (stub_gateway None) 1 2
              (call "retrieve_knowledge"
                 (arguments_of (JStr "q") (Some "energy")))
              [("energy", "tok-1")] [] eq_refl)
    as (_ & _ & Hreg & Hlog).
  split; [|exact Hreg].
  apply (Hlog (arguments_of (JStr "q") (Some "energy")) "q");
    [reflexivity | reflexivity | discriminate].
Defined.

(** ** The shaped generation response *)

Lemma shape_source_spec ref :
  Payload.src_content (shape_source ref) = Types.ref_content_text ref
  /\ Payload.src_metadata (shape_source ref) = Types.ref_metadata ref
  /\ (location_uri (Types.ref_location ref) = None ->
      Payload.src_source (shape_source ref) = "Unknown")
  /\ (forall u, location_uri (Types.ref_location ref) = Some u -> u <> "" ->
      Payload.src_source (shape_source ref) = u).
Proof.
  unfold shape_source. cbn. repeat split.
  - intros Hnone. now rewrite Hnone.
  - intros u Hu Hne. rewrite Hu. cbn.
    apply truthy_string_true in Hne. now rewrite Hne.
Qed.

(** X2: When the gateway resolves, [retrieve_and_generate] settles with
    [{ query, response, sessionId, citations }]: [response] is the
    generated text and [sessionId] the token of this response, not the
    caller's handle; [citations] is absent when the result has none, and
    otherwise has one entry per citation, in order, with [id] counting from
    1, the citation's text and span, and one source per reference, in
    order, whose [source] is the locator's URI or ["Unknown"]. *)
Theorem retrieve_and_generate_shape gw now request a q sessions result glog :
  name request = "retrieve_and_generate" ->
  arguments request = Some a ->
  query a = JStr q ->
  q <> "" ->
  retrieveAndGenerate gw q (resolve sessions (sessionId a)) (systemPrompt a)
  = (inr result, glog) ->
  exists shaped,
    outcome (callTool gw now request sessions)
    = inr (text_result
             (Payload.Generated q (Types.output_text result)
                (Types.sessionId result) shaped))
    /\ (Types.citations result = None -> shaped = None)
    /\ forall cs, Types.citations result = Some cs ->
         exists out, shaped = Some out
           /\ length out = length cs
           /\ forall i c, cs !! i = Some c ->
                exists s, out !! i = Some s
                  /\ Payload.id s = i + 1
                  /\ Payload.text s = Types.part_text c
                  /\ Payload.span s = Types.part_span c
                  /\ length (Payload.sources s)
                     = length (Types.retrievedReferences c)
                  /\ forall j ref,
                       Types.retrievedReferences c !! j = Some ref ->
                       exists src, Payload.sources s !! j = Some src
                         /\ Payload.src_content src
                            = Types.ref_content_text ref
                         /\ Payload.src_metadata src = Types.ref_metadata ref
                         /\ (location_uri (Types.ref_location ref) = None ->
                             Payload.src_source src = "Unknown")
                         /\ (forall u,
                               location_uri (Types.ref_location ref) = Some u ->
                               u <> "" -> Payload.src_source src = u).
Proof.
  intros Hname Hargs Hquery Hq Hgw.
  rewrite (retrieve_and_generate_success gw now request a q sessions
             result glog Hname Hargs Hquery Hq Hgw).
  unfold outcome, shape_generated. cbn [fst].
  eexists. split; [reflexivity|]. split.
  - intros Hnone. now rewrite Hnone.
  - intros cs Hcs. rewrite Hcs. eexists. split; [reflexivity|].
    split; [apply length_imap|].
    intros i c Hi. exists (shape_citation i c).
    rewrite list_lookup_imap, Hi. cbn.
    repeat split; try reflexivity; [apply length_map|].
    intros j ref Hj. exists (shape_source ref).
    change (map shape_source (Types.retrievedReferences c))
      with (shape_source <$> Types.retrievedReferences c).
    rewrite list_lookup_fmap, Hj. split; [reflexivity|].
    apply shape_source_spec.
Qed.

Lemma retrieve_and_generate_shape_witness :
  exists shaped,
    outcome (callTool (stub_gateway (Some "tok-1")) 1
               (call "retrieve_and_generate"
                  (arguments_of (JStr "q") (Some "energy"))) [])
    = inr (text_result (Payload.Generated "q" "r" (Some "tok-1") shaped))
    /\ shaped = None.
Proof.
  destruct (retrieve_and_generate_shape (stub_gateway (Some "tok-1")) 1
              (call "retrieve_and_generate"
                 (arguments_of (JStr "q") (Some "energy")))
              (arguments_of (JStr "q") (Some "energy")) "q" []
              {| Types.output_text := "r"; Types.citations := None;
                 Types.sessionId := Some "tok-1" |} [])
    as (shaped & Hout & Hnone & _);
    [reflexivity | reflexivity | reflexivity | discriminate | reflexivity |].
  exists shaped. split; [exact Hout | now apply Hnone].
Defined.

(** ** Sessions without a handle *)

(** X3: A [retrieve_and_generate] call without a [sessionId] (absent or empty)
    whose response carries a non-empty token calls the gateway with the
    [sessionId] as supplied, stores the token under
    ["session_" + Date.now()], leaves the other handles as they were, and
    reports the token, not the generated handle, as [sessionId]. *)
Theorem anonymous_session_stored gw now request a q sessions result glog tok :
  name request = "retrieve_and_generate" ->
  arguments request = Some a ->
  query a = JStr q ->
  q <> "" ->
  sessionId a = None \/ sessionId a = Some "" ->
  retrieveAndGenerate gw q (sessionId a) (systemPrompt a) = (inr result, glog) ->
  Types.sessionId result = Some tok ->
  tok <> "" ->
  let done := callTool gw now request sessions in
  call_log done = GatewayGenerate q (sessionId a) (systemPrompt a) :: glog
  /\ registry_after done
     = JsMap.set ("session_" +:+ pretty now) tok sessions
  /\ JsMap.get ("session_" +:+ pretty now) (registry_after done) = Some tok
  /\ (forall other, other <> "session_" +:+ pretty now ->
        JsMap.get other (registry_after done) = JsMap.get other sessions)
  /\ exists citations,
       outcome done
       = inr (text_result
                (Payload.Generated q (Types.output_text result) (Some tok)
                   citations)).
Proof.
  intros Hname Hargs Hquery Hq Hsid Hgw Htok Hne done.
  assert (Hres : resolve sessions (sessionId a) = sessionId a).
  { destruct Hsid as [-> | ->]; reflexivity. }
  assert (Hstored : stored now (sessionId a) (Some tok) sessions
                    = JsMap.set ("session_" +:+ pretty now) tok sessions).
  { unfold stored, store_session, sessions_set, registry_after.
    apply truthy_string_true in Hne. rewrite Hne.
    destruct Hsid as [-> | ->]; reflexivity. }
  rewrite <- Hres in Hgw.
  pose proof (retrieve_and_generate_success gw now request a q sessions
                result glog Hname Hargs Hquery Hq Hgw) as Hrun.
  unfold done. rewrite Hrun, Htok, Hstored, Hres.
  unfold call_log, registry_after, outcome. cbn [fst snd].
  split; [reflexivity|]. split; [reflexivity|].
  split; [apply get_set_eq|]. split.
  - intros other Hother. apply get_set_ne. congruence.
  - unfold shape_generated. rewrite Htok. eauto.
Qed.

Lemma anonymous_session_stored_witness :
  registry_after
    (callTool (stub_gateway (Some "tok-1")) 7
       (call "retrieve_and_generate" (arguments_of (JStr "q") None))
       [("energy", "")])
  = [("energy", ""); ("session_7", "tok-1")].
Proof.
  destruct (anonymous_session_stored (stub_gateway (Some "tok-1")) 7
              (call "retrieve_and_generate" (arguments_of (JStr "q") None))
              (arguments_of (JStr "q") None) "q" [("energy", "")]
              {| Types.output_text := "r"; Types.citations := None;
                 Types.sessionId := Some "tok-1" |} [] "tok-1")
    as (_ & Hreg & _);
    [reflexivity | reflexivity | reflexivity | discriminate | now left
    | reflexivity | reflexivity | discriminate |].
  rewrite Hreg. reflexivity.
Defined.

Lemma set_set (k v v' : string) (m : JsMap.t) :
  JsMap.set k v (JsMap.set k v' m) = JsMap.set k v m.
Proof.
  induction m as [|[k0 v0] rest IH].
  - cbn [JsMap.set]. now rewrite decide_True.
  - cbn [JsMap.set]. destruct (decide (k0 = k)) as [Heq|Hne].
    + cbn [JsMap.set]. now rewrite decide_True.
    + cbn [JsMap.set]. rewrite decide_False by exact Hne. now rewrite IH.
Qed.

Lemma generated_handle_inj now1 now2 :
  generated_handle now1 = generated_handle now2 -> now1 = now2.
Proof.
  unfold generated_handle. intros H.
  apply (inj (String.app "session_")) in H.
  now apply (inj pretty) in H.
Qed.

Lemma create_session_unnamed gw now request a sessions :
  name request = "create_session" ->
  arguments request = Some a ->
  sessionName a = None \/ sessionName a = Some "" ->
  callTool gw now request sessions
  = (inr (text_result
            (Payload.SessionCreated (generated_handle now)
               "Session created successfully")),
     JsMap.set (generated_handle now) "" sessions, []).
Proof.
  intros Hname Hargs Hs. unfold callTool.
  rewrite (dispatch_create_session _ _ _ Hname), Hargs, create_session_run.
  now destruct Hs as [-> | ->].
Qed.

(** X4: Two [create_session] calls without a name made at different clock
    readings allocate different handles, and both are registered
    afterwards; made at the same reading they allocate the same handle, so
    the second adds no session. *)
Theorem unnamed_sessions_by_clock gw gw' now now' request request' a a'
    sessions :
  name request = "create_session" ->
  arguments request = Some a ->
  sessionName a = None \/ sessionName a = Some "" ->
  name request' = "create_session" ->
  arguments request' = Some a' ->
  sessionName a' = None \/ sessionName a' = Some "" ->
  let first := callTool gw now request sessions in
  let second := callTool gw' now' request' (registry_after first) in
  exists handle handle',
    outcome first
    = inr (text_result
             (Payload.SessionCreated handle "Session created successfully"))
    /\ outcome second
       = inr (text_result
                (Payload.SessionCreated handle' "Session created successfully"))
    /\ JsMap.get handle (registry_after second) = Some ""
    /\ JsMap.get handle' (registry_after second) = Some ""
    /\ (now <> now' -> handle <> handle')
    /\ (now = now' ->
        handle = handle'
        /\ registry_after second = registry_after first).
Proof.
  intros Hname Hargs Hs Hname' Hargs' Hs' first second.
  exists (generated_handle now), (generated_handle now').
  pose proof (create_session_unnamed gw now request a sessions
                Hname Hargs Hs) as Hfirst.
  fold first in Hfirst.
  assert (Hreg : registry_after first
                 = JsMap.set (generated_handle now) "" sessions)
    by now rewrite Hfirst.
  pose proof (create_session_unnamed gw' now' request' a'
                (registry_after first) Hname' Hargs' Hs') as Hsecond.
  fold second in Hsecond.
  assert (Hreg' : registry_after second
                  = JsMap.set (generated_handle now') ""
                      (JsMap.set (generated_handle now) "" sessions))
    by now rewrite Hsecond, Hreg.
  split; [now rewrite Hfirst|]. split; [now rewrite Hsecond|].
  rewrite Hreg', Hreg. split; [|split; [|split]].
  - rewrite get_set.
    destruct (decide (generated_handle now' = generated_handle now));
      [reflexivity | apply get_set_eq].
  - apply get_set_eq.
  - intros Hne Heq. now apply generated_handle_inj in Heq.
  - intros <-. split; [reflexivity | apply set_set].
Qed.

Lemma unnamed_sessions_by_clock_witness :
  let create :=
    call "create_session"
      {| query := JUndefined; sessionId := None; systemPrompt := None;
         sessionName := None; maxResults := None |} in
  registry_after
    (callTool (stub_gateway None) 8 create
       (registry_after (callTool (stub_gateway None) 7 create [])))
  = [("session_7", ""); ("session_8", "")].
Proof.
  cbv zeta.
  destruct (unnamed_sessions_by_clock (stub_gateway None) (stub_gateway None)
              7 8
              (call "create_session"
                 {| query := JUndefined; sessionId := None;
                    systemPrompt := None; sessionName := None;
                    maxResults := None |})
              (call "create_session"
                 {| query := JUndefined; sessionId := None;
                    systemPrompt := None; sessionName := None;
                    maxResults := None |})
              {| query := JUndefined; sessionId := None;
                 systemPrompt := None; sessionName := None;
                 maxResults := None |}
              {| query := JUndefined; sessionId := None;
                 systemPrompt := None; sessionName := None;
                 maxResults := None |} [])
    as (handle & handle' & _ & _ & _ & _ & Hne & _);
    [reflexivity | reflexivity | now left | reflexivity | reflexivity
    | now left |].
  reflexivity.
Defined.

(** ** The order and growth of the registry *)

Lemma has_set (k k' v : string) (m : JsMap.t) :
  JsMap.has k' (JsMap.set k v m)
  = if decide (k = k') then true else JsMap.has k' m.
Proof.
  unfold JsMap.has. rewrite get_set. now destruct (decide (k = k')).
Qed.

Lemma keys_step gw now request sessions :
  (registry_after (callTool gw now request sessions)).*1 = sessions.*1
  \/ exists handle,
       JsMap.has handle sessions = false
       /\ (registry_after (callTool gw now request sessions)).*1
          = sessions.*1 ++ [handle].
Proof.
  pose proof (serve_write
                {| call_gateway := gw; call_now := now;
                   call_request := request |} sessions) as Hw.
  unfold serve in Hw. cbn [call_gateway call_now call_request] in Hw.
  rewrite Hw. destruct (write_of _) as [[k v]|]; [|now left].
  cbn [fst snd]. rewrite keys_set.
  destruct (JsMap.has k sessions) eqn:Hhas; [now left|].
  right. now exists k.
Qed.

(** X5: No call removes or reorders a session: after a call the handles are
    those from before in the same order, with at most one handle, not
    registered before, added at the end; so the handles before any
    sequence of calls are a prefix of the handles after it. *)
Theorem registry_order_stable :
  (forall gw now request sessions,
      (registry_after (callTool gw now request sessions)).*1 = sessions.*1
      \/ exists handle,
           JsMap.has handle sessions = false
           /\ (registry_after (callTool gw now request sessions)).*1
              = sessions.*1 ++ [handle])
  /\ (forall calls sessions,
        sessions.*1 `prefix_of` (run calls sessions).1.*1).
Proof.
  split; [apply keys_step|].
  induction calls as [|c rest IH]; intros sessions; [reflexivity|].
  cbn [run fst]. etransitivity; [|apply IH].
  destruct (keys_step (call_gateway c) (call_now c) (call_request c) sessions)
    as [Heq|(handle & _ & Heq)]; unfold serve; rewrite Heq;
    [reflexivity | now apply prefix_app_r].
Qed.

(** ** [list_sessions] *)



(** ** Calls without an argument bag *)

(** X7: A [retrieve_knowledge], [retrieve_and_generate] or [create_session]
    call whose request has no [arguments] is rejected with
    [InternalError] naming the tool; no collaborator is called and nothing
    is registered. *)
Theorem missing_arguments_rejected gw now request sessions :
  arguments request = None ->
  name request = "retrieve_knowledge"
  \/ name request = "retrieve_and_generate"
  \/ name request = "create_session" ->
  exists e,
    callTool gw now request sessions = (inl e, sessions, [])
    /\ code e = InternalError
    /\ includes (message e) (name request).
Proof.
  intros Hargs Hname. unfold callTool.
  destruct Hname as [Hname|[Hname|Hname]];
    [ rewrite (dispatch_retrieve_knowledge _ _ _ Hname)
    | rewrite (dispatch_retrieve_and_generate _ _ _ Hname)
    | rewrite (dispatch_create_session _ _ _ Hname) ];
    rewrite Hargs;
    (eexists; split; [reflexivity|]; split; [reflexivity|]; cbn;
     apply includes_append_l, includes_append_r, includes_refl).
Qed.

Lemma missing_arguments_rejected_witness :
  exists e,
    callTool (stub_gateway None) 1
      {| name := "create_session"; arguments := None |} [("energy", "")]
    = (inl e, [("energy", "")], [])
    /\ code e = InternalError
    /\ includes (message e) "create_session".
Proof.
  apply (missing_arguments_rejected (stub_gateway None) 1
           {| name := "create_session"; arguments := None |}
           [("energy", "")]).
  - reflexivity.
  - right. right. reflexivity.
Defined.

(** ** The server over the real client *)

Lemma valid_query a q :
  query a = JStr q -> q <> "" -> invalid_query (query a) = false.
Proof. intros Hquery Hq. apply invalid_query_false. eauto. Qed.

(** A valid [retrieve_knowledge] call on the real server. *)
Lemma server_retrieve_knowledge config client now request a q sessions :
  name request = "retrieve_knowledge" ->
  arguments request = Some a ->
  query a = JStr q ->
  q <> "" ->
  let input :=
    BedrockKnowledgeBaseClient.retrieve_input config q (sessionId a) in
  server config client now request sessions
  = (match send_retrieve client input with
     | inr response =>
         let results :=
           map BedrockKnowledgeBaseClient.retrieve_result
             (BedrockKnowledgeBaseClient.or_nil
                (Aws.retrievalResults response)) in
         inr (text_result
                (Payload.Retrieved q (imap shape_result results)
                   (length results)))
     | inl error =>
         inl {| code := InternalError;
                message :=
                  "Error executing tool " +:+ name request +:+ ": "
                  +:+ "Failed to retrieve from knowledge base: "
                  +:+ message_or_unknown error |}
     end,
     sessions,
     [GatewayRetrieve q (sessionId a); BackendRetrieve input]).
Proof.
  intros Hname Hargs Hquery Hq input. unfold server, callTool.
  rewrite (dispatch_retrieve_knowledge _ _ _ Hname), Hargs,
    retrieve_knowledge_run, (valid_query a q Hquery Hq), Hquery.
  cbn [as_string retrieve BedrockKnowledgeBaseClient.new].
  unfold BedrockKnowledgeBaseClient.retrieve. fold input.
  now destruct (send_retrieve client input).
Qed.

(** A valid [retrieve_and_generate] call on the real server. *)
Lemma server_retrieve_and_generate config client now request a q sessions :
  name request = "retrieve_and_generate" ->
  arguments request = Some a ->
  query a = JStr q ->
  q <> "" ->
  let continuation := resolve sessions (sessionId a) in
  let input :=
    BedrockKnowledgeBaseClient.retrieveAndGenerate_input config q
      continuation (systemPrompt a) in
  server config client now request sessions
  = (match send_generate client input with
     | inr response =>
         inr (shape_generated q
                (BedrockKnowledgeBaseClient.generate_result response))
     | inl error =>
         inl {| code := InternalError;
                message :=
                  "Error executing tool " +:+ name request +:+ ": "
                  +:+ "Failed to retrieve and generate from knowledge base: "
                  +:+ message_or_unknown error |}
     end,
     match send_generate client input with
     | inr response =>
         stored now (sessionId a) (Aws.response_sessionId response) sessions
     | inl _ => sessions
     end,
     [GatewayGenerate q continuation (systemPrompt a);
      BackendGenerate input]).
Proof.
  intros Hname Hargs Hquery Hq continuation input. unfold server, callTool.
  rewrite (dispatch_retrieve_and_generate _ _ _ Hname), Hargs,
    retrieve_and_generate_run, (valid_query a q Hquery Hq), Hquery.
  cbn [as_string retrieveAndGenerate BedrockKnowledgeBaseClient.new].
  unfold BedrockKnowledgeBaseClient.retrieveAndGenerate.
  fold continuation. fold input.
  now destruct (send_generate client input).
Qed.

(** A call that does not reach the gateway, on any server. *)
Lemma callTool_quiet gw now request sessions :
  (forall a q, arguments request = Some a -> query a = JStr q -> q <> "" ->
     name request <> "retrieve_knowledge"
     /\ name request <> "retrieve_and_generate") ->
  call_log (callTool gw now request sessions) = [].
Proof.
  intros Hquiet. unfold callTool, call_log, dispatch.
  destruct (decide (name request = "retrieve_knowledge")) as [Hrk|_].
  { destruct (arguments request) as [a|] eqn:Hargs; [|reflexivity].
    rewrite retrieve_knowledge_run.
    destruct (invalid_query (query a)) eqn:Hinv; [reflexivity|].
    apply invalid_query_false in Hinv as (q & Hquery & Hq).
    now destruct (Hquiet a q eq_refl Hquery Hq). }
  destruct (decide (name request = "retrieve_and_generate")) as [Hrag|_].
  { destruct (arguments request) as [a|] eqn:Hargs; [|reflexivity].
    rewrite retrieve_and_generate_run.
    destruct (invalid_query (query a)) eqn:Hinv; [reflexivity|].
    apply invalid_query_false in Hinv as (q & Hquery & Hq).
    now destruct (Hquiet a q eq_refl Hquery Hq). }
  destruct (decide (name request = "create_session")) as [_|_].
  { now destruct (arguments request). }
  destruct (decide (name request = "list_sessions")); reflexivity.
Qed.

Lemma reaches_gateway_or_not (request : CallToolRequest) :
  (exists a q,
      (name request = "retrieve_knowledge"
       \/ name request = "retrieve_and_generate")
      /\ arguments request = Some a /\ query a = JStr q /\ q <> "")
  \/ ~ (exists a q,
          (name request = "retrieve_knowledge"
           \/ name request = "retrieve_and_generate")
          /\ arguments request = Some a /\ query a = JStr q /\ q <> "").
Proof.
  destruct (decide (name request = "retrieve_knowledge"
                    \/ name request = "retrieve_and_generate"))
    as [Hname|Hname]; [|right; intros (a & q & H & _); contradiction].
  destruct (arguments request) as [a|];
    [|right; intros (a & q & _ & [=] & _)].
  destruct (invalid_query (query a)) eqn:Hinv.
  - right. intros (a' & q & _ & [= <-] & Hquery & Hq).
    rewrite (valid_query a q Hquery Hq) in Hinv. discriminate.
  - left. apply invalid_query_false in Hinv as (q & Hquery & Hq). eauto 10.
Qed.

(** X9: The real server sends the backend at most one request per call and
    never repeats one: the log of a call is empty, or it is the gateway
    call followed by the one request built from it, whether the backend
    answered or failed; and it is non-empty exactly for a
    [retrieve_knowledge] or [retrieve_and_generate] call with a non-empty
    string [query]. *)
Theorem one_backend_request config client now request sessions :
  let log := call_log (server config client now request sessions) in
  (log = []
   \/ (exists q sid,
         log = [GatewayRetrieve q sid;
                BackendRetrieve
                  (BedrockKnowledgeBaseClient.retrieve_input config q sid)])
   \/ (exists q continuation prompt,
         log = [GatewayGenerate q continuation prompt;
                BackendGenerate
                  (BedrockKnowledgeBaseClient.retrieveAndGenerate_input
                     config q continuation prompt)]))
  /\ (log <> [] <->
      exists a q,
        (name request = "retrieve_knowledge"
         \/ name request = "retrieve_and_generate")
        /\ arguments request = Some a /\ query a = JStr q /\ q <> "").
Proof.
  cbv zeta.
  destruct (reaches_gateway_or_not request)
    as [(a & q & Hname & Hargs & Hquery & Hq)|Hnot].
  - assert (Hlog : call_log (server config client now request sessions) <> []
                   /\ ((exists q sid,
                         call_log (server config client now request sessions)
                         = [GatewayRetrieve q sid;
                            BackendRetrieve
                              (BedrockKnowledgeBaseClient.retrieve_input
                                 config q sid)])
                       \/ (exists q continuation prompt,
                             call_log (server config client now request sessions)
                             = [GatewayGenerate q continuation prompt;
                                BackendGenerate
                                  (BedrockKnowledgeBaseClient.retrieveAndGenerate_input
                                     config q continuation prompt)]))).
    { destruct Hname as [Hname|Hname].
      - rewrite (server_retrieve_knowledge config client now request a q
                   sessions Hname Hargs Hquery Hq).
        split; [discriminate|]. left. eauto.
      - rewrite (server_retrieve_and_generate config client now request a q
                   sessions Hname Hargs Hquery Hq).
        split; [discriminate|]. right. eauto. }
    destruct Hlog as [Hne Hshape]. split; [now right|].
    split; [eauto 10 | intros _; exact Hne].
  - assert (Hlog : call_log (server config client now request sessions) = []).
    { apply callTool_quiet. intros a q Hargs Hquery Hq.
      split; intros Hname; apply Hnot; eauto 10. }
    split; [now left|]. rewrite Hlog. split; [congruence | intros H; contradiction].
Qed.

(** ** The catalog and the error codes *)

Lemma catalog_names : map Catalog.name listTools = tool_names.
Proof. reflexivity. Qed.

Lemma catalog_requires_query tool :
  tool ∈ listTools ->
  requires tool "query" = true
  <-> (Catalog.name tool = "retrieve_knowledge"
       \/ Catalog.name tool = "retrieve_and_generate").
Proof.
  unfold listTools. intros Hin.
  repeat (apply elem_of_cons in Hin as [->|Hin]);
    [| | | | now apply elem_of_nil in Hin].
  - split; [now left | reflexivity].
  - split; [now right | reflexivity].
  - split; [discriminate | intros [H|H]; discriminate].
  - split; [discriminate | intros [H|H]; discriminate].
Qed.

Lemma catalog_tool_named tool_name' :
  tool_name' ∈ tool_names ->
  exists tool, tool ∈ listTools /\ Catalog.name tool = tool_name'.
Proof.
  rewrite <- catalog_names. intros Hin.
  apply list_elem_of_fmap in Hin as (tool & -> & Hin). eauto.
Qed.

Lemma tool_names_cases tool_name' :
  tool_name' ∈ tool_names <->
  tool_name' = "retrieve_knowledge" \/ tool_name' = "retrieve_and_generate"
  \/ tool_name' = "create_session" \/ tool_name' = "list_sessions".
Proof. unfold tool_names. rewrite !elem_of_cons, elem_of_nil. tauto. Qed.

(** X8: On the real server the code of a rejection tells its cause:
    [MethodNotFound] exactly when the name is not in the catalog;
    [InvalidParams] exactly when the tool's schema requires [query] and the
    argument bag has no non-empty string there; [InternalError] exactly
    when a cataloged tool got no argument bag or its backend request
    failed.  A failure of the backend never surfaces under another code. *)
Theorem error_codes config client now request sessions e :
  outcome (server config client now request sessions) = inl e ->
  (code e = MethodNotFound <-> name request ∉ map Catalog.name listTools)
  /\ (code e = InvalidParams <->
      exists tool a,
        tool ∈ listTools /\ Catalog.name tool = name request
        /\ requires tool "query" = true
        /\ arguments request = Some a
        /\ (typeof (query a) <> "string" \/ query a = JStr ""))
  /\ (code e = InternalError <->
      name request ∈ map Catalog.name listTools
      /\ (arguments request = None
          \/ call_log (server config client now request sessions) <> [])).
Proof.
  rewrite catalog_names. intros Hout.
  assert (Hreq : forall tool a,
             tool ∈ listTools -> Catalog.name tool = name request ->
             requires tool "query" = true ->
             arguments request = Some a ->
             typeof (query a) <> "string" \/ query a = JStr "" ->
             (name request = "retrieve_knowledge"
              \/ name request = "retrieve_and_generate")
             /\ invalid_query (query a) = true).
  { intros tool a Hin Hn Hr _ Hq. split.
    - rewrite <- Hn. now apply catalog_requires_query.
    - now apply invalid_query_true. }
  destruct (reaches_gateway_or_not request)
    as [(a & q & Hname & Hargs & Hquery & Hq)|Hnot].
  - (* the backend was called, and failed *)
    assert (Hin : name request ∈ tool_names).
    { apply tool_names_cases. tauto. }
    assert (He : code e = InternalError
                 /\ call_log (server config client now request sessions) <> []).
    { destruct Hname as [Hname|Hname].
      - rewrite (server_retrieve_knowledge config client now request a q
                   sessions Hname Hargs Hquery Hq) in Hout |- *.
        unfold outcome, call_log in *. cbn [fst snd] in *.
        destruct (send_retrieve client _); [|discriminate].
        injection Hout as <-. now split.
      - rewrite (server_retrieve_and_generate config client now request a q
                   sessions Hname Hargs Hquery Hq) in Hout |- *.
        unfold outcome, call_log in *. cbn [fst snd] in *.
        destruct (send_generate client _); [|discriminate].
        injection Hout as <-. now split. }
    destruct He as [He Hlog]. rewrite He. split; [|split].
    + split; [discriminate | contradiction].
    + split; [discriminate|].
      intros (tool & a' & Hin' & Hn & Hr & Hargs' & Hbad).
      destruct (Hreq tool a' Hin' Hn Hr Hargs' Hbad) as [_ Hinv].
      assert (a' = a) as -> by congruence.
      rewrite (valid_query a q Hquery Hq) in Hinv. discriminate.
    + split; [intros _; split; [exact Hin | now right] | reflexivity].
  - (* the backend was not called *)
    assert (Hlog : call_log (server config client now request sessions) = []).
    { apply callTool_quiet. intros a q Hargs Hquery Hq.
      split; intros Hname; apply Hnot; eauto 10. }
    rewrite Hlog. unfold server, callTool, outcome in Hout.
    destruct (decide (name request ∈ tool_names)) as [Hin|Hout'].
    + apply tool_names_cases in Hin as Hcases.
      destruct Hcases as [Hname|[Hname|[Hname|Hname]]].
      * rewrite (dispatch_retrieve_knowledge _ _ _ Hname) in Hout.
        destruct (arguments request) as [a|] eqn:Hargs.
        -- rewrite retrieve_knowledge_run in Hout.
           destruct (invalid_query (query a)) eqn:Hinv.
           ++ cbn in Hout. injection Hout as <-. cbn [code query_error].
              split; [split; [discriminate | contradiction]|]. split.
              ** split; [intros _ | reflexivity].
                 destruct (catalog_tool_named _ Hin) as (tool & Htool & Hn).
                 exists tool, a. repeat split; try assumption.
                 --- apply catalog_requires_query; [exact Htool|].
                     rewrite Hn. now left.
                 --- now apply invalid_query_true.
              ** split; [discriminate|]. intros [_ [H|H]]; congruence.
           ++ exfalso. apply Hnot.
              apply invalid_query_false in Hinv as (q & Hquery & Hq).
              eauto 10.
        -- cbn in Hout. injection Hout as <-. cbn [code].
           split; [split; [discriminate | contradiction]|]. split.
           ++ split; [discriminate|].
              intros (tool & a' & _ & _ & _ & [=] & _).
           ++ split; [intros _; split; [exact Hin | now left] | reflexivity].
      * rewrite (dispatch_retrieve_and_generate _ _ _ Hname) in Hout.
        destruct (arguments request) as [a|] eqn:Hargs.
        -- rewrite retrieve_and_generate_run in Hout.
           destruct (invalid_query (query a)) eqn:Hinv.
           ++ cbn in Hout. injection Hout as <-. cbn [code query_error].
              split; [split; [discriminate | contradiction]|]. split.
              ** split; [intros _ | reflexivity].
                 destruct (catalog_tool_named _ Hin) as (tool & Htool & Hn).
                 exists tool, a. repeat split; try assumption.
                 --- apply catalog_requires_query; [exact Htool|].
                     rewrite Hn. now right.
                 --- now apply invalid_query_true.
              ** split; [discriminate|]. intros [_ [H|H]]; congruence.
           ++ exfalso. apply Hnot.
              apply invalid_query_false in Hinv as (q & Hquery & Hq).
              eauto 10.
        -- cbn in Hout. injection Hout as <-. cbn [code].
           split; [split; [discriminate | contradiction]|]. split.
           ++ split; [discriminate|].
              intros (tool & a' & _ & _ & _ & [=] & _).
           ++ split; [intros _; split; [exact Hin | now left] | reflexivity].
      * rewrite (dispatch_create_session _ _ _ Hname) in Hout.
        destruct (arguments request) as [a|] eqn:Hargs; [discriminate|].
        cbn in Hout. injection Hout as <-. cbn [code].
        split; [split; [discriminate | contradiction]|]. split.
        -- split; [discriminate|].
           intros (tool & a' & _ & _ & _ & [=] & _).
        -- split; [intros _; split; [exact Hin | now left] | reflexivity].
      * rewrite (dispatch_list_sessions _ _ _ Hname) in Hout. discriminate.
    + rewrite (dispatch_default _ _ _ Hout') in Hout.
      cbn in Hout. injection Hout as <-. cbn [code].
      split; [split; [intros _; exact Hout' | reflexivity]|]. split.
      * split; [discriminate|].
        intros (tool & a & Htool & Hn & _). exfalso. apply Hout'.
        rewrite <- Hn, <- catalog_names. now apply list_elem_of_fmap_2.
      * split; [discriminate | intros [Hin _]; contradiction].
Qed.

Lemma error_codes_witness :
  exists e,
    outcome (server stub_config (failing_backend "AccessDenied") 1
               (call "retrieve_and_generate" (arguments_of (JStr "q") None))
               []) = inl e
    /\ code e = InternalError.
Proof.
  eexists. split; [reflexivity|].
  apply (error_codes stub_config (failing_backend "AccessDenied") 1
           (call "retrieve_and_generate" (arguments_of (JStr "q") None)) []);
    [reflexivity|].
  split.
  - apply (bool_decide_unpack _). vm_compute. reflexivity.
  - right. discriminate.
Defined.

(** ** What reaches the backend *)

Lemma spread_cases (c : option string) :
  (forall s, c = Some s -> s <> "" -> BedrockKnowledgeBaseClient.spread c = Some s)
  /\ (c = None \/ c = Some "" -> BedrockKnowledgeBaseClient.spread c = None).
Proof.
  split.
  - intros s -> Hs. now apply spread_present.
  - apply spread_absent.
Qed.

(** X10: The request of a valid [retrieve_knowledge] call carries the
    configured knowledge base and result limit (the [maxResults] argument
    plays no part), the query text, the configured reranking model when
    that is non-empty, and the [sessionId] argument as [nextToken] when it
    is non-empty, untouched by the registry. *)
Theorem retrieve_request config client now request a q sessions :
  name request = "retrieve_knowledge" ->
  arguments request = Some a ->
  query a = JStr q ->
  q <> "" ->
  exists input,
    call_log (server config client now request sessions)
    = [GatewayRetrieve q (sessionId a); BackendRetrieve input]
    /\ Aws.knowledgeBaseId input = Types.knowledgeBaseId config
    /\ Aws.retrievalQuery_text input = q
    /\ Aws.numberOfResults input = Types.maxResults config
    /\ (forall sid, sessionId a = Some sid -> sid <> "" ->
          Aws.nextToken input = Some sid)
    /\ (sessionId a = None \/ sessionId a = Some "" ->
        Aws.nextToken input = None)
    /\ (forall arn, Types.rerankingModelArn config = Some arn -> arn <> "" ->
          Aws.rerankingConfiguration input = Some arn)
    /\ (Types.rerankingModelArn config = None
        \/ Types.rerankingModelArn config = Some "" ->
        Aws.rerankingConfiguration input = None).
Proof.
  intros Hname Hargs Hquery Hq.
  rewrite (server_retrieve_knowledge config client now request a q sessions
             Hname Hargs Hquery Hq).
  eexists. split; [reflexivity|]. cbn.
  split; [reflexivity|]. split; [reflexivity|]. split; [reflexivity|].
  destruct (spread_cases (sessionId a)) as [Hs1 Hs2].
  destruct (spread_cases (Types.rerankingModelArn config)) as [Hr1 Hr2].
  auto.
Qed.

Lemma retrieve_request_witness :
  exists input,
    call_log (server stub_config (failing_backend "down") 1
                (call "retrieve_knowledge"
                   {| query := JStr "q"; sessionId := Some "energy";
                      systemPrompt := None; sessionName := None;
                      maxResults := Some 5%Z |})
                [("energy", "tok-1")])
    = [GatewayRetrieve "q" (Some "energy"); BackendRetrieve input]
    /\ Aws.numberOfResults input = 10%Z
    /\ Aws.nextToken input = Some "energy".
Proof.
  destruct (retrieve_request stub_config (failing_backend "down") 1
              (call "retrieve_knowledge"
                 {| query := JStr "q"; sessionId := Some "energy";
                    systemPrompt := None; sessionName := None;
                    maxResults := Some 5%Z |})
              {| query := JStr "q"; sessionId := Some "energy";
                 systemPrompt := None; sessionName := None;
                 maxResults := Some 5%Z |} "q" [("energy", "tok-1")])
    as (input & Hlog & _ & _ & Hlimit & Htoken & _);
    [reflexivity | reflexivity | reflexivity | discriminate |].
  exists input. split; [exact Hlog|]. split; [exact Hlimit|].
  apply (Htoken "energy"); [reflexivity | discriminate].
Defined.

(** X11: The request of a valid [retrieve_and_generate] call carries the query
    text, the configured knowledge base, model and result limit, the
    configured reranking model and the [systemPrompt] as prompt template
    when they are non-empty, and as [sessionId] the token registered for
    the supplied handle when that token is non-empty, or the supplied
    value itself when the handle is not registered. *)
Theorem generate_request config client now request a q sessions :
  name request = "retrieve_and_generate" ->
  arguments request = Some a ->
  query a = JStr q ->
  q <> "" ->
  exists continuation input,
    call_log (server config client now request sessions)
    = [GatewayGenerate q continuation (systemPrompt a); BackendGenerate input]
    /\ Aws.input_text input = q
    /\ Aws.kb_knowledgeBaseId input = Types.knowledgeBaseId config
    /\ Aws.kb_modelArn input = Types.modelArn config
    /\ Aws.kb_numberOfResults input = Types.maxResults config
    /\ (forall arn, Types.rerankingModelArn config = Some arn -> arn <> "" ->
          Aws.kb_rerankingConfiguration input = Some arn)
    /\ (Types.rerankingModelArn config = None
        \/ Types.rerankingModelArn config = Some "" ->
        Aws.kb_rerankingConfiguration input = None)
    /\ (forall prompt, systemPrompt a = Some prompt -> prompt <> "" ->
          Aws.generationConfiguration input = Some prompt)
    /\ (systemPrompt a = None \/ systemPrompt a = Some "" ->
        Aws.generationConfiguration input = None)
    /\ (forall sid tok,
          sessionId a = Some sid -> sid <> "" ->
          JsMap.get sid sessions = Some tok -> tok <> "" ->
          Aws.sessionId input = Some tok)
    /\ (forall sid,
          sessionId a = Some sid -> sid <> "" ->
          JsMap.get sid sessions = None ->
          Aws.sessionId input = Some sid).
Proof.
  intros Hname Hargs Hquery Hq.
  rewrite (server_retrieve_and_generate config client now request a q sessions
             Hname Hargs Hquery Hq).
  eexists _, _. split; [reflexivity|]. cbn.
  split; [reflexivity|]. split; [reflexivity|]. split; [reflexivity|].
  split; [reflexivity|].
  destruct (spread_cases (Types.rerankingModelArn config)) as [Hr1 Hr2].
  destruct (spread_cases (systemPrompt a)) as [Hp1 Hp2].
  split; [exact Hr1|]. split; [exact Hr2|].
  split; [exact Hp1|]. split; [exact Hp2|]. split.
  - intros sid tok Hsid Hne Hget Htok.
    rewrite Hsid, (resolve_hit sessions sid tok Hne Hget).
    now apply spread_present.
  - intros sid Hsid Hne Hget.
    rewrite Hsid, (resolve_miss sessions sid Hget).
    now apply spread_present.
Qed.

Lemma generate_request_witness :
  exists continuation input,
    call_log (server stub_config (failing_backend "down") 1
                (call "retrieve_and_generate"
                   {| query := JStr "q"; sessionId := Some "energy";
                      systemPrompt := Some "Be brief"; sessionName := None;
                      maxResults := None |})
                [("energy", "tok-1")])
    = [GatewayGenerate "q" continuation (Some "Be brief");
       BackendGenerate input]
    /\ Aws.generationConfiguration input = Some "Be brief"
    /\ Aws.sessionId input = Some "tok-1".
Proof.
  destruct (generate_request stub_config (failing_backend "down") 1
              (call "retrieve_and_generate"
                 {| query := JStr "q"; sessionId := Some "energy";
                    systemPrompt := Some "Be brief"; sessionName := None;
                    maxResults := None |})
              {| query := JStr "q"; sessionId := Some "energy";
                 systemPrompt := Some "Be brief"; sessionName := None;
                 maxResults := None |} "q" [("energy", "tok-1")])
    as (continuation & input & Hlog & _ & _ & _ & _ & _ & _ & Hprompt & _
        & Htoken & _);
    [reflexivity | reflexivity | reflexivity | discriminate |].
  exists continuation, input. split; [exact Hlog|]. split.
  - apply (Hprompt "Be brief"); [reflexivity | discriminate].
  - apply (Htoken "energy" "tok-1");
      [reflexivity | discriminate | reflexivity | discriminate].
Defined.

(** X12: The token of a backend response comes back to the backend: when a
    [retrieve_and_generate] call with a non-empty [sessionId] gets a
    response with a non-empty token, the next such call with the same
    [sessionId] sends that token as the [sessionId] of its request. *)
Theorem token_round_trip config client client' now now' request request'
    a a' q q' sid sessions response tok :
  name request = "retrieve_and_generate" ->
  arguments request = Some a ->
  query a = JStr q ->
  q <> "" ->
  sessionId a = Some sid ->
  sid <> "" ->
  send_generate client
    (BedrockKnowledgeBaseClient.retrieveAndGenerate_input config q
       (resolve sessions (Some sid)) (systemPrompt a)) = inr response ->
  Aws.response_sessionId response = Some tok ->
  tok <> "" ->
  name request' = "retrieve_and_generate" ->
  arguments request' = Some a' ->
  query a' = JStr q' ->
  q' <> "" ->
  sessionId a' = Some sid ->
  exists input,
    call_log (server config client' now' request'
                (registry_after (server config client now request sessions)))
    = [GatewayGenerate q' (Some tok) (systemPrompt a'); BackendGenerate input]
    /\ Aws.sessionId input = Some tok.
Proof.
  intros Hname Hargs Hquery Hq Hsid Hne Hsend Htok Htokne
    Hname' Hargs' Hquery' Hq' Hsid'.
  rewrite (server_retrieve_and_generate config client now request a q sessions
             Hname Hargs Hquery Hq).
  unfold registry_after at 1. cbn [fst snd].
  rewrite Hsid, Hsend, Htok, (stored_supplied now sid tok sessions Hne Htokne).
  rewrite (server_retrieve_and_generate config client' now' request' a' q' _
             Hname' Hargs' Hquery' Hq').
  rewrite Hsid', (resolve_hit _ sid tok Hne (get_set_eq sid tok sessions)).
  eexists. split; [reflexivity|]. cbn. now apply spread_present.
Qed.

Lemma token_round_trip_witness :
  let request :=
    call "retrieve_and_generate" (arguments_of (JStr "q") (Some "energy")) in
  let answering :=
    stub_backend {| Aws.retrievalResults := None |}
      {| Aws.output_text := Some "r"; Aws.citations := None;
         Aws.response_sessionId := Some "tok-1" |} in
  exists input,
    call_log (server stub_config (failing_backend "down") 2 request
                (registry_after (server stub_config answering 1 request [])))
    = [GatewayGenerate "q" (Some "tok-1") None; BackendGenerate input]
    /\ Aws.sessionId input = Some "tok-1".
Proof.
  cbv zeta.
  apply (token_round_trip stub_config
           (stub_backend {| Aws.retrievalResults := None |}
              {| Aws.output_text := Some "r"; Aws.citations := None;
                 Aws.response_sessionId := Some "tok-1" |})
           (failing_backend "down") 1 2
           (call "retrieve_and_generate"
              (arguments_of (JStr "q") (Some "energy")))
           (call "retrieve_and_generate"
              (arguments_of (JStr "q") (Some "energy")))
           (arguments_of (JStr "q") (Some "energy"))
           (arguments_of (JStr "q") (Some "energy")) "q" "q" "energy" []
           {| Aws.output_text := Some "r"; Aws.citations := None;
              Aws.response_sessionId := Some "tok-1" |} "tok-1");
    first [reflexivity | discriminate].
Defined.

(** X13: When the backend request of a valid call fails, whatever was thrown,
    the handler rejects with [InternalError]; the message is
    ["Error executing tool <name>: "], the client's fixed prefix for the
    operation, and then the message of the thrown error: the message of an
    [Error], ["MCP error <code>: <text>"] for an [McpError], and
    ["Unknown error"] for a value that is no error; one request was sent
    and the registry is left as it was. *)
Theorem backend_failure_reported config client now request a q sessions :
  arguments request = Some a ->
  query a = JStr q ->
  q <> "" ->
  (forall error,
      name request = "retrieve_knowledge" ->
      send_retrieve client
        (BedrockKnowledgeBaseClient.retrieve_input config q (sessionId a))
      = inl error ->
      server config client now request sessions
      = (inl {| code := InternalError;
                message :=
                  "Error executing tool retrieve_knowledge: "
                  +:+ "Failed to retrieve from knowledge base: "
                  +:+ match error with
                      | ThrowError msg => msg
                      | ThrowMcp typed =>
                          "MCP error " +:+ pretty (error_number (code typed))
                          +:+ ": " +:+ message typed
                      | ThrowOther _ => "Unknown error"
                      end |},
         sessions,
         [GatewayRetrieve q (sessionId a);
          BackendRetrieve
            (BedrockKnowledgeBaseClient.retrieve_input config q
               (sessionId a))]))
  /\ (forall error,
        name request = "retrieve_and_generate" ->
        send_generate client
          (BedrockKnowledgeBaseClient.retrieveAndGenerate_input config q
             (resolve sessions (sessionId a)) (systemPrompt a))
        = inl error ->
        server config client now request sessions
        = (inl {| code := InternalError;
                  message :=
                    "Error executing tool retrieve_and_generate: "
                    +:+ "Failed to retrieve and generate from knowledge base: "
                    +:+ match error with
                        | ThrowError msg => msg
                        | ThrowMcp typed =>
                            "MCP error "
                            +:+ pretty (error_number (code typed))
                            +:+ ": " +:+ message typed
                        | ThrowOther _ => "Unknown error"
                        end |},
           sessions,
           [GatewayGenerate q (resolve sessions (sessionId a))
              (systemPrompt a);
            BackendGenerate
              (BedrockKnowledgeBaseClient.retrieveAndGenerate_input config q
                 (resolve sessions (sessionId a)) (systemPrompt a))])).
Proof.
  intros Hargs Hquery Hq. split; intros error Hname Hsend.
  - rewrite (server_retrieve_knowledge config client now request a q sessions
               Hname Hargs Hquery Hq).
    cbv zeta. rewrite Hsend, Hname. now destruct error.
  - rewrite (server_retrieve_and_generate config client now request a q
               sessions Hname Hargs Hquery Hq).
    cbv zeta. rewrite Hsend, Hname. now destruct error.
Qed.

Lemma backend_failure_reported_witness :
  server stub_config
    (throwing_backend
       (ThrowMcp {| code := InvalidParams; message := "bad request" |}))
    1 (call "retrieve_and_generate" (arguments_of (JStr "q") (Some "energy")))
    [("energy", "tok-1")]
  = (inl {| code := InternalError;
            message :=
              "Error executing tool retrieve_and_generate: Failed to retrieve and generate from knowledge base: MCP error -32602: bad request" |},
     [("energy", "tok-1")],
     [GatewayGenerate "q" (Some "tok-1") None;
      BackendGenerate
        (BedrockKnowledgeBaseClient.retrieveAndGenerate_input stub_config
           "q" (Some "tok-1") None)]).
Proof.
  apply (proj2 (backend_failure_reported stub_config
                  (throwing_backend
                     (ThrowMcp {| code := InvalidParams;
                                  message := "bad request" |}))
                  1
                  (call "retrieve_and_generate"
                     (arguments_of (JStr "q") (Some "energy")))
                  (arguments_of (JStr "q") (Some "energy")) "q"
                  [("energy", "tok-1")] eq_refl eq_refl
                  ltac:(discriminate))
           (ThrowMcp {| code := InvalidParams; message := "bad request" |})
           eq_refl eq_refl).
Defined.

(** ** The configuration *)

Lemma maxResults_issues_nil (v : option JsNumber) :
  ConfigSchema.maxResults_issues v = []
  <-> v = None \/ exists z, v = Some (Num z) /\ (1 <= z <= 100)%Z.
Proof.
  unfold ConfigSchema.maxResults_issues.
  destruct v as [[|z]|].
  - split; [discriminate | intros [[=]|(z & [=] & _)]].
  - split.
    + intros Hnil. right. exists z. split; [reflexivity|].
      destruct (Z.ltb_spec z 1); [discriminate|].
      destruct (Z.ltb_spec 100 z); [discriminate|]. lia.
    + intros [[=]|(z' & [= <-] & Hz)].
      destruct (Z.ltb_spec z 1); [lia|].
      destruct (Z.ltb_spec 100 z); [lia|]. reflexivity.
  - split; [now left | reflexivity].
Qed.

Lemma parse_inr input c :
  ConfigSchema.parse input = inr c ->
  ConfigSchema.issues input = []
  /\ ConfigSchema.knowledgeBaseId input = Some (Types.knowledgeBaseId c)
  /\ Types.region c = default "us-east-1" (ConfigSchema.region input)
  /\ Types.modelArn c = ConfigSchema.modelArn input
  /\ Types.rerankingModelArn c = ConfigSchema.rerankingModelArn input
  /\ (ConfigSchema.maxResults input = None /\ Types.maxResults c = 10%Z
      \/ ConfigSchema.maxResults input = Some (Num (Types.maxResults c))).
Proof.
  unfold ConfigSchema.parse.
  destruct (ConfigSchema.issues input) as [|issue rest]; [|discriminate].
  destruct (ConfigSchema.knowledgeBaseId input) as [kb|]; [|discriminate].
  destruct (ConfigSchema.maxResults input) as [[|z]|]; [discriminate| |];
    intros [= <-]; cbn; repeat split; auto.
Qed.

Lemma parse_issues input :
  ConfigSchema.issues input <> [] ->
  ConfigSchema.parse input = inl (ConfigSchema.issues input).
Proof.
  unfold ConfigSchema.parse.
  destruct (ConfigSchema.issues input) as [|issue rest]; [congruence|].
  reflexivity.
Qed.

Lemma issues_nil input :
  ConfigSchema.issues input = []
  <-> (exists kb, ConfigSchema.knowledgeBaseId input = Some kb)
      /\ (ConfigSchema.maxResults input = None
          \/ exists z, ConfigSchema.maxResults input = Some (Num z)
                       /\ (1 <= z <= 100)%Z).
Proof.
  unfold ConfigSchema.issues. rewrite <- maxResults_issues_nil.
  destruct (ConfigSchema.knowledgeBaseId input) as [kb|]; cbn.
  - split; [eauto | tauto].
  - split; [discriminate | intros [(kb & [=]) _]].
Qed.

Lemma or_else_cases (a : option string) (b : string) :
  (exists s, a = Some s /\ s <> "" /\ or_else a b = s)
  \/ ((a = None \/ a = Some "") /\ or_else a b = b).
Proof.
  destruct a as [s|]; [|right; split; [now left | reflexivity]].
  unfold or_else, truthy_string. destruct (decide (s = "")) as [->|Hs].
  - right. split; [now right | reflexivity].
  - left. now exists s.
Qed.

Lemma includes_join (sep x : string) (l : list string) :
  x ∈ l -> includes (join sep l) x.
Proof.
  induction l as [|y rest IH]; intros Hin; [now apply elem_of_nil in Hin|].
  apply elem_of_cons in Hin as [->|Hin].
  - destruct rest as [|z rest']; cbn [join];
      [apply includes_refl | apply includes_append_r, includes_refl].
  - destruct rest as [|z rest']; [now apply elem_of_nil in Hin|].
    change (join sep (y :: z :: rest'))
      with (y +:+ sep +:+ join sep (z :: rest')).
    now apply includes_append_l, includes_append_l, IH.
Qed.

(** The number [loadConfig] hands to the schema as [maxResults]. *)
Lemma loadConfig_inr parseInt issue_message env c :
  loadConfig parseInt issue_message env = inr c ->
  env !! "KNOWLEDGE_BASE_ID" = Some (Types.knowledgeBaseId c)
  /\ (1 <= Types.maxResults c <= 100)%Z
  /\ match env !! "MAX_RESULTS" with
     | Some s =>
         if truthy_string s then parseInt s = Num (Types.maxResults c)
         else Types.maxResults c = 10%Z
     | None => Types.maxResults c = 10%Z
     end
  /\ Types.region c
     = or_else (env !! "AWS_REGION")
         (or_else (env !! "AWS_DEFAULT_REGION") "us-east-1")
  /\ Types.modelArn c = env !! "MODEL_ARN"
  /\ Types.rerankingModelArn c = env !! "RERANKING_MODEL_ARN".
Proof.
  unfold loadConfig. cbv zeta.
  destruct (ConfigSchema.parse _) as [errors|parsed] eqn:Hparse;
    [discriminate|].
  intros [= <-].
  pose proof (parse_inr _ _ Hparse)
    as (Hnil & Hkb & Hregion & Hmodel & Hrerank & Hmax).
  apply issues_nil in Hnil as [_ Hrange]. cbn in *.
  split; [exact Hkb|]. split.
  - destruct Hmax as [[[=] _]|Hmax].
    destruct Hrange as [[=]|(z & Hz & Hbounds)]. congruence.
  - split; [|auto].
    destruct Hmax as [[[=] _]|Hmax].
    destruct (env !! "MAX_RESULTS") as [s|];
      [destruct (truthy_string s)|]; congruence.
Qed.

(** X15: A configuration that [loadConfig] returns has the [KNOWLEDGE_BASE_ID]
    of the environment, a result limit between 1 and 100 (10 when
    [MAX_RESULTS] is unset or empty, otherwise what [parseInt] reads from
    it), a non-empty region ([AWS_REGION] when non-empty, else
    [AWS_DEFAULT_REGION] when non-empty, else ["us-east-1"]), and the two
    model references as the environment has them. *)
Theorem loadConfig_loaded parseInt issue_message env c :
  loadConfig parseInt issue_message env = inr c ->
  env !! "KNOWLEDGE_BASE_ID" = Some (Types.knowledgeBaseId c)
  /\ (1 <= Types.maxResults c <= 100)%Z
  /\ (env !! "MAX_RESULTS" = None \/ env !! "MAX_RESULTS" = Some "" ->
      Types.maxResults c = 10%Z)
  /\ (forall s, env !! "MAX_RESULTS" = Some s -> s <> "" ->
        parseInt s = Num (Types.maxResults c))
  /\ Types.region c <> ""
  /\ (forall r, env !! "AWS_REGION" = Some r -> r <> "" -> Types.region c = r)
  /\ (env !! "AWS_REGION" = None \/ env !! "AWS_REGION" = Some "" ->
      forall r, env !! "AWS_DEFAULT_REGION" = Some r -> r <> "" ->
        Types.region c = r)
  /\ (env !! "AWS_REGION" = None \/ env !! "AWS_REGION" = Some "" ->
      env !! "AWS_DEFAULT_REGION" = None
      \/ env !! "AWS_DEFAULT_REGION" = Some "" ->
      Types.region c = "us-east-1")
  /\ Types.modelArn c = env !! "MODEL_ARN"
  /\ Types.rerankingModelArn c = env !! "RERANKING_MODEL_ARN".
Proof.
  intros Hload.
  apply loadConfig_inr in Hload
    as (Hkb & Hrange & Hmax & Hregion & Hmodel & Hrerank).
  split; [exact Hkb|]. split; [exact Hrange|].
  split; [|split]; [| |split; [|split; [|split; [|split; [|split]]]]];
    try assumption.
  - intros [Hnone|Hempty].
    + now rewrite Hnone in Hmax.
    + now rewrite Hempty in Hmax.
  - intros s Hs Hne. rewrite Hs in Hmax.
    apply truthy_string_true in Hne. now rewrite Hne in Hmax.
  - rewrite Hregion.
    destruct (or_else_cases (env !! "AWS_REGION")
                (or_else (env !! "AWS_DEFAULT_REGION") "us-east-1"))
      as [(s & _ & Hs & ->)|[_ ->]]; [exact Hs|].
    destruct (or_else_cases (env !! "AWS_DEFAULT_REGION") "us-east-1")
      as [(s & _ & Hs & ->)|[_ ->]]; [exact Hs | discriminate].
  - intros r Hr Hne. rewrite Hregion, Hr. cbn.
    apply truthy_string_true in Hne. now rewrite Hne.
  - intros Hnone r Hr Hne. rewrite Hregion.
    destruct (or_else_cases (env !! "AWS_REGION")
                (or_else (env !! "AWS_DEFAULT_REGION") "us-east-1"))
      as [(s & Hs & Hsne & _)|[_ ->]].
    + destruct Hnone as [Hnone|Hnone]; congruence.
    + rewrite Hr. cbn. apply truthy_string_true in Hne. now rewrite Hne.
  - intros Hnone Hnone'. rewrite Hregion.
    destruct Hnone as [-> | ->], Hnone' as [-> | ->]; reflexivity.
Qed.

Lemma loadConfig_loaded_witness :
  exists c,
    loadConfig parse_digits zod_message example_env = inr c
    /\ Types.knowledgeBaseId c = "kb"
    /\ Types.maxResults c = 25%Z
    /\ Types.region c = "eu-west-1".
Proof.
  exists {| Types.region := "eu-west-1"; Types.knowledgeBaseId := "kb";
            Types.modelArn := None; Types.maxResults := 25;
            Types.rerankingModelArn := None |}.
  assert (Hload : loadConfig parse_digits zod_message example_env
                  = inr {| Types.region := "eu-west-1";
                           Types.knowledgeBaseId := "kb";
                           Types.modelArn := None; Types.maxResults := 25;
                           Types.rerankingModelArn := None |})
    by (vm_compute; reflexivity).
  split; [exact Hload|].
  destruct (loadConfig_loaded parse_digits zod_message example_env _ Hload)
    as (_ & _ & _ & Hmax & _ & _ & Hregion & _).
  split; [reflexivity|]. split; [reflexivity|].
  apply Hregion; [now left | reflexivity | discriminate].
Defined.

Lemma loadConfig_inl parseInt issue_message env msg :
  loadConfig parseInt issue_message env = inl msg ->
  exists errors,
    errors <> []
    /\ errors
       = ConfigSchema.knowledgeBaseId_issues (env !! "KNOWLEDGE_BASE_ID")
         ++ ConfigSchema.maxResults_issues
              (Some (match env !! "MAX_RESULTS" with
                     | Some s => if truthy_string s then parseInt s else Num 10
                     | None => Num 10
                     end))
    /\ msg
       = "Configuration validation failed:" +:+ newline
         +:+ join newline
               (map (fun err =>
                       join "." (Zod.path err) +:+ ": "
                       +:+ issue_message (Zod.code err)) errors).
Proof.
  unfold loadConfig. cbv zeta.
  destruct (ConfigSchema.parse _) as [errors|parsed] eqn:Hparse;
    [|discriminate].
  intros [= <-]. exists errors.
  unfold ConfigSchema.parse in Hparse.
  destruct (ConfigSchema.issues _) as [|issue rest] eqn:Hissues.
  - exfalso. apply issues_nil in Hissues as [(kb & Hkb) Hmax].
    cbn in Hkb, Hmax. cbn in Hparse. rewrite Hkb in Hparse.
    destruct Hmax as [[=]|(z & Hz & _)]. injection Hz as Hz.
    now rewrite Hz in Hparse.
  - injection Hparse as <-. split; [discriminate|]. split; [|reflexivity].
    symmetry. exact Hissues.
Qed.

(** X16: [loadConfig] throws exactly when [KNOWLEDGE_BASE_ID] is unset, or
    [MAX_RESULTS] is a non-empty string that [parseInt] reads as [NaN] or
    as a number below 1 or above 100; the message starts with
    ["Configuration validation failed:"] and has a line
    ["knowledgeBaseId: ..."] in the first case and a line
    ["maxResults: ..."] in the second.  An empty [KNOWLEDGE_BASE_ID] is
    accepted here. *)
Theorem loadConfig_rejects parseInt issue_message env :
  ((exists msg, loadConfig parseInt issue_message env = inl msg)
   <-> env !! "KNOWLEDGE_BASE_ID" = None
       \/ exists s, env !! "MAX_RESULTS" = Some s /\ s <> ""
            /\ (parseInt s = NaN
                \/ exists z, parseInt s = Num z /\ (z < 1 \/ 100 < z)%Z))
  /\ forall msg, loadConfig parseInt issue_message env = inl msg ->
       (exists rest,
           msg = "Configuration validation failed:" +:+ newline +:+ rest)
       /\ (env !! "KNOWLEDGE_BASE_ID" = None ->
           includes msg
             ("knowledgeBaseId: " +:+ issue_message Zod.InvalidTypeUndefined))
       /\ ((exists s, env !! "MAX_RESULTS" = Some s /\ s <> ""
              /\ (parseInt s = NaN
                  \/ exists z, parseInt s = Num z /\ (z < 1 \/ 100 < z)%Z)) ->
           includes msg "maxResults: ").
Proof.
  split.
  - split.
    + intros (msg & Hload).
      apply loadConfig_inl in Hload as (errors & Hne & Herrors & _).
      destruct (env !! "KNOWLEDGE_BASE_ID") as [kb|] eqn:Hkb; [|now left].
      right. cbn [ConfigSchema.knowledgeBaseId_issues app] in Herrors.
      destruct (env !! "MAX_RESULTS") as [s|] eqn:Hs;
        [|subst errors; exfalso; apply Hne; reflexivity].
      destruct (truthy_string s) eqn:Ht;
        [|subst errors; exfalso; apply Hne; reflexivity].
      apply truthy_string_true in Ht. exists s.
      split; [reflexivity|]. split; [exact Ht|].
      destruct (parseInt s) as [|z]; [now left|]. right. exists z.
      split; [reflexivity|].
      assert (Hnot : ConfigSchema.maxResults_issues (Some (Num z)) <> [])
        by congruence.
      rewrite maxResults_issues_nil in Hnot.
      destruct (decide (1 <= z <= 100)%Z) as [Hin|Hout]; [|lia].
      exfalso. apply Hnot. right. now exists z.
    + intros Hbad.
      destruct (loadConfig parseInt issue_message env) as [msg|c] eqn:Hload;
        [eauto|].
      exfalso. apply loadConfig_inr in Hload as (Hkb & Hrange & Hmax & _).
      destruct Hbad as [Hnone|(s & Hs & Hne & Hparse)]; [congruence|].
      rewrite Hs in Hmax. apply truthy_string_true in Hne.
      rewrite Hne in Hmax.
      destruct Hparse as [Hnan|(z & Hz & Hout)]; [congruence|].
      assert (z = Types.maxResults c) by congruence. lia.
  - intros msg Hload.
    apply loadConfig_inl in Hload as (errors & Hne & Herrors & ->).
    split; [eauto|]. split.
    + intros Hnone. apply includes_append_l, includes_append_l, includes_join.
      rewrite Herrors, Hnone. cbn. apply list_elem_of_here.
    + intros (s & Hs & Hsne & Hparse).
      apply includes_append_l, includes_append_l.
      rewrite Herrors, Hs. apply truthy_string_true in Hsne. rewrite Hsne.
      assert (Hissue : exists issue rest,
                 ConfigSchema.maxResults_issues (Some (parseInt s))
                 = issue :: rest
                 /\ Zod.path issue = ["maxResults"]).
      { unfold ConfigSchema.maxResults_issues.
        destruct Hparse as [-> |(z & -> & Hout)]; [eauto|].
        destruct (Z.ltb_spec z 1); [eauto|].
        destruct (Z.ltb_spec 100 z); [eauto | lia]. }
      destruct Hissue as (issue & rest & -> & Hpath).
      eapply includes_trans.
      * apply includes_join.
        apply (list_elem_of_fmap_2
                 (fun err => join "." (Zod.path err) +:+ ": "
                             +:+ issue_message (Zod.code err)) _ issue).
        apply elem_of_app. right. apply list_elem_of_here.
      * rewrite Hpath. cbn [join].
        exists "", (issue_message (Zod.code issue)). reflexivity.
Qed.

Lemma loadConfig_rejects_witness :
  exists msg,
    loadConfig parse_digits zod_message
      (<["MAX_RESULTS" := "invalid"]> example_env) = inl msg
    /\ includes msg "maxResults: ".
Proof.
  assert (Hbad : exists s,
             (<["MAX_RESULTS" := "invalid"]> example_env) !! "MAX_RESULTS"
             = Some s
             /\ s <> ""
             /\ (parse_digits s = NaN
                 \/ exists z, parse_digits s = Num z /\ (z < 1 \/ 100 < z)%Z)).
  { exists "invalid". split; [reflexivity|]. split; [discriminate|].
    left. reflexivity. }
  destruct (loadConfig_rejects parse_digits zod_message
              (<["MAX_RESULTS" := "invalid"]> example_env))
    as [Hiff Hmsg].
  destruct (proj2 Hiff (or_intror Hbad)) as (msg & Hload).
  exists msg. split; [exact Hload|].
  now apply (Hmsg msg Hload).
Defined.

(** ** The environment check and the start-up *)

(** X17: [validateEnvironment] passes exactly when [KNOWLEDGE_BASE_ID] is set
    to a non-empty string, and otherwise throws a message that names the
    missing variable. *)
Theorem validateEnvironment_checks env :
  (validateEnvironment env = inr tt
   <-> exists kb, env !! "KNOWLEDGE_BASE_ID" = Some kb /\ kb <> "")
  /\ forall msg, validateEnvironment env = inl msg ->
       (env !! "KNOWLEDGE_BASE_ID" = None
        \/ env !! "KNOWLEDGE_BASE_ID" = Some "")
       /\ exists rest,
            msg = "Missing required environment variables: KNOWLEDGE_BASE_ID"
                  +:+ rest.
Proof.
  unfold validateEnvironment, requiredEnvVars. cbn [List.filter].
  destruct (env !! "KNOWLEDGE_BASE_ID") as [kb|] eqn:Hkb; cbn [truthy_opt].
  - unfold truthy_string. destruct (decide (kb = "")) as [->|Hne]; cbn.
    + split.
      * split; [discriminate | intros (kb & [= <-] & Hne); congruence].
      * intros msg [= <-]. split; [now right|]. eauto.
    + split.
      * split; [eauto | reflexivity].
      * intros msg [=].
  - cbn. split.
    + split; [discriminate | intros (kb & [=] & _)].
    + intros msg [= <-]. split; [now left|]. eauto.
Qed.

Lemma validateEnvironment_inr env :
  validateEnvironment env = inr tt ->
  exists kb, env !! "KNOWLEDGE_BASE_ID" = Some kb /\ kb <> "".
Proof.
  unfold validateEnvironment, requiredEnvVars. cbn [List.filter].
  destruct (env !! "KNOWLEDGE_BASE_ID") as [kb|]; cbn [truthy_opt];
    [|discriminate].
  unfold truthy_string. destruct (decide (kb = "")) as [->|Hne];
    [discriminate | eauto].
Qed.

(** The backend requests of the real server carry the configuration. *)
Lemma backend_events config client now request sessions ev :
  ev ∈ call_log (server config client now request sessions) ->
  match ev with
  | BackendRetrieve input =>
      Aws.knowledgeBaseId input = Types.knowledgeBaseId config
      /\ Aws.numberOfResults input = Types.maxResults config
  | BackendGenerate input =>
      Aws.kb_knowledgeBaseId input = Types.knowledgeBaseId config
      /\ Aws.kb_numberOfResults input = Types.maxResults config
  | _ => True
  end.
Proof.
  destruct (reaches_gateway_or_not request)
    as [(a & q & Hname & Hargs & Hquery & Hq)|Hnot].
  - destruct Hname as [Hname|Hname].
    + rewrite (server_retrieve_knowledge config client now request a q
                 sessions Hname Hargs Hquery Hq).
      unfold call_log. cbn [snd]. intros Hin.
      repeat (apply elem_of_cons in Hin as [->|Hin]);
        [exact I | now split | now apply elem_of_nil in Hin].
    + rewrite (server_retrieve_and_generate config client now request a q
                 sessions Hname Hargs Hquery Hq).
      unfold call_log. cbn [snd]. intros Hin.
      repeat (apply elem_of_cons in Hin as [->|Hin]);
        [exact I | now split | now apply elem_of_nil in Hin].
  - unfold server. rewrite callTool_quiet.
    + intros Hin. now apply elem_of_nil in Hin.
    + intros a q Hargs Hquery Hq.
      split; intros Hname; apply Hnot; eauto 10.
Qed.

(** X18: [main] ends with a running server only when [KNOWLEDGE_BASE_ID] is
    set and non-empty, [loadConfig] returns and [server.run()] resolves;
    every request that server sends to the backend then names that
    knowledge base and asks for between 1 and 100 results.  In every other
    case [main] exits with status 1 and the failure line is the last thing
    it logs: alone when the environment check or [loadConfig] threw, after
    the start-up lines when [server.run()] rejected.  So when [connect]
    rejects, as it does without a transport, [main] exits with status 1
    from every environment. *)
Theorem main_starts parseInt issue_message connect env :
  (forall config log,
      main parseInt issue_message connect env = Running config log ->
      validateEnvironment env = inr tt
      /\ loadConfig parseInt issue_message env = inr config
      /\ connect = inr tt
      /\ log = startup_log config
      /\ (exists kb, env !! "KNOWLEDGE_BASE_ID" = Some kb /\ kb <> ""
                     /\ Types.knowledgeBaseId config = kb)
      /\ forall client now request sessions ev,
           ev ∈ call_log (server config client now request sessions) ->
           match ev with
           | BackendRetrieve input =>
               env !! "KNOWLEDGE_BASE_ID" = Some (Aws.knowledgeBaseId input)
               /\ (1 <= Aws.numberOfResults input <= 100)%Z
           | BackendGenerate input =>
               env !! "KNOWLEDGE_BASE_ID"
               = Some (Aws.kb_knowledgeBaseId input)
               /\ (1 <= Aws.kb_numberOfResults input <= 100)%Z
           | _ => True
           end)
  /\ (forall status log,
        main parseInt issue_message connect env = Exited status log ->
        status = 1%Z
        /\ ((exists reason,
               validateEnvironment env = inl reason
               /\ log = [failure_line (ThrowError reason)])
            \/ (exists reason,
                  validateEnvironment env = inr tt
                  /\ loadConfig parseInt issue_message env = inl reason
                  /\ log = [failure_line (ThrowError reason)])
            \/ (exists config error,
                  validateEnvironment env = inr tt
                  /\ loadConfig parseInt issue_message env = inr config
                  /\ connect = inl error
                  /\ log = startup_log config ++ [failure_line error])))
  /\ (forall error,
        connect = inl error ->
        exists log,
          main parseInt issue_message connect env = Exited 1 log
          /\ exists thrown, last log = Some (failure_line thrown)).
Proof.
  unfold main, BedrockKBMCPServer_run. split; [|split].
  - intros config log Hmain.
    destruct (validateEnvironment env) as [reason|[]] eqn:Hvalid;
      [discriminate|].
    destruct (loadConfig parseInt issue_message env) as [reason|c] eqn:Hload;
      [discriminate|].
    destruct connect as [error|[]]; [discriminate|].
    injection Hmain as <- <-.
    apply validateEnvironment_inr in Hvalid as (kb & Hkb & Hne).
    pose proof (loadConfig_inr _ _ _ _ Hload) as (Hkb' & Hrange & _).
    split; [reflexivity|]. split; [reflexivity|]. split; [reflexivity|]. split; [reflexivity|].
    split.
    + exists kb. split; [exact Hkb|]. split; [exact Hne | congruence].
    + intros client now request sessions ev Hin.
      apply backend_events in Hin.
      destruct ev as [| |input|input]; try exact I;
        destruct Hin as [-> ->]; now split.
  - intros status log Hmain.
    destruct (validateEnvironment env) as [reason|[]] eqn:Hvalid.
    + injection Hmain as <- <-. split; [reflexivity|]. left. eauto.
    + destruct (loadConfig parseInt issue_message env) as [reason|c] eqn:Hload.
      * injection Hmain as <- <-. split; [reflexivity|]. right. left. eauto.
      * destruct connect as [error|[]]; [|discriminate].
        injection Hmain as <- <-. split; [reflexivity|]. right. right.
        eauto 10.
  - intros error ->.
    destruct (validateEnvironment env) as [reason|[]].
    + eexists. split; [reflexivity|]. eexists. reflexivity.
    + destruct (loadConfig parseInt issue_message env) as [reason|c].
      * eexists. split; [reflexivity|]. eexists. reflexivity.
      * eexists. split; [reflexivity|]. exists error. apply last_snoc.
Qed.

Lemma main_starts_witness :
  exists log thrown,
    main parse_digits zod_message connect_rejects example_env = Exited 1 log
    /\ last log = Some (failure_line thrown).
Proof.
  destruct (proj2 (proj2 (main_starts parse_digits zod_message
                            connect_rejects example_env))
              (ThrowError "Cannot set properties of undefined (setting 'onclose')")
              eq_refl)
    as (log & Hmain & thrown & Hlast).
  exists log, thrown. split; [exact Hmain | exact Hlast].
Defined.

(** The start-up on the example environment, evaluated: the start-up lines
    are logged, then the failure of [server.run()], and [main] exits. *)
Example main_without_transport :
  main parse_digits zod_message connect_rejects example_env
  = Exited 1
      [ [JStr "🚀 Starting Bedrock Knowledge Base Retrieval MCP Server"];
        [JStr "   Region: eu-west-1"];
        [JStr "   Knowledge Base ID: kb"];
        [JStr "   Max Results: 25"];
        [JStr ("✅ Server ready and waiting for connections..." +:+ newline)];
        [JStr "❌ Failed to start server:";
         JStr "Cannot set properties of undefined (setting 'onclose')"] ].
Proof. vm_compute. reflexivity. Qed.
